(** * scripts/deps-analyze.py: the dependency analyzer

    A shallow embedding of [DependencyAnalyzer] and [main] of
    scripts/deps-analyze.py, and the properties of its version classifier,
    its two ecosystem probes, its report summary, its human report and its
    exit code.

    Conventions of the embedding.
    - A Python [str] is a Rocq [string]; a character is a code point below
      256.  On that range the pattern class [\d] is exactly ['0'..'9'] and
      [\s], like [str.isspace], is the twelve code points of [isspace].
    - A Python [int] is a [Z].
    - A value decoded by [json.loads] is a [pyval].  Numbers with a fraction
      or an exponent (Python floats) are not represented.
    - A raised exception is a value of [exn]; a computation that may raise
      returns [result A], one that also prints returns [M A].
    - The pictographs that open the script's console messages are left out
      of the message texts.
    - The outside world is what a [World] describes.  Four things the
      interpreter can do are not represented there: an interrupt while a
      command runs (it is in [run_outcome], the outcomes of the call inside
      [run_command]), an exception of [json.loads] other than
      [json.JSONDecodeError], a [PermissionError] that [Path.exists] lets
      through, and a console that cannot encode a line.  The statements
      below say what the script does when these do not happen; none says
      that they cannot. *)

From Stdlib Require Import String Ascii List ZArith Bool Lia PeanoNat.
Import ListNotations.

Local Open Scope list_scope.
Local Open Scope string_scope.

(** ** Exceptions and the two effect layers *)

Inductive exn : Type :=
| KeyError (key : string)
| TypeError
| AttributeError
| IndexError
| ValueError
| ExternalError (cls msg : string)
    (* raised by a library call into the outside world (OSError,
       CalledProcessError, ...): the class name and [str(e)] *)
| SystemExit (code : Z).

Definition result (A : Type) : Type := (exn + A)%type.

Definition ok {A} (a : A) : result A := inr a.
Definition raise {A} (e : exn) : result A := inl e.

Definition rbind {A B} (m : result A) (k : A -> result B) : result B :=
  match m with
  | inl e => inl e
  | inr a => k a
  end.

Declare Scope result_scope.
Delimit Scope result_scope with res.
Notation "x <- m ;; k" := (rbind m (fun x => k))
  (at level 61, m at next level, right associativity) : result_scope.

(** ** Strings *)

Definition code (c : ascii) : nat := nat_of_ascii c.

(** [\d] and [str.isdigit] on code points below 256. *)
Definition isdigit (c : ascii) : bool :=
  ((48 <=? code c) && (code c <=? 57))%nat.

(** [\s] and [str.isspace] on code points below 256:
    9..13, 28..32, 133 and 160. *)
Definition isspace (c : ascii) : bool :=
  (((9 <=? code c) && (code c <=? 13))
   || ((28 <=? code c) && (code c <=? 32))
   || (code c =? 133) || (code c =? 160))%nat.

Fixpoint mem_char (c : ascii) (chars : string) : bool :=
  match chars with
  | EmptyString => false
  | String c' rest => Ascii.eqb c c' || mem_char c rest
  end.

(** [s.lstrip(chars)]: drops every leading character that occurs in
    [chars]. *)
Fixpoint lstrip (chars s : string) : string :=
  match s with
  | EmptyString => EmptyString
  | String c s' => if mem_char c chars then lstrip chars s' else s
  end.

Fixpoint lstrip_space (s : string) : string :=
  match s with
  | EmptyString => EmptyString
  | String c s' => if isspace c then lstrip_space s' else s
  end.

Fixpoint rstrip_space (s : string) : string :=
  match s with
  | EmptyString => EmptyString
  | String c s' =>
      match rstrip_space s' with
      | EmptyString => if isspace c then EmptyString else String c EmptyString
      | r => String c r
      end
  end.

(** [s.strip()] *)
Definition strip (s : string) : string := rstrip_space (lstrip_space s).

(** [s.split(sep)] for a one-character separator; never the empty list. *)
Fixpoint split (sep : ascii) (s : string) : list string :=
  match s with
  | EmptyString => [EmptyString]
  | String c s' =>
      if Ascii.eqb c sep then EmptyString :: split sep s'
      else match split sep s' with
           | h :: t => String c h :: t
           | [] => [String c EmptyString]
           end
  end.

Definition nonempty (s : string) : bool :=
  match s with
  | EmptyString => false
  | String _ _ => true
  end.

(** ** Regular expressions

    The fragment of [re] the script uses, with [re]'s backtracking
    semantics: a greedy repetition tries the longest run first and gives
    characters back while the rest of the pattern fails; an optional group
    is tried before it is skipped. *)

Inductive regex : Type :=
| Bol                              (* ^ *)
| Chr (c : ascii)                  (* a literal character *)
| Plus (cls : ascii -> bool)       (* [cls]+ *)
| Group (i : nat) (r : regex)      (* ( r ), the i-th group *)
| Seq (r1 r2 : regex)
| Opt (r : regex).                 (* (?: r )? *)

Definition captures : Type := list (nat * string).
Definition cont : Type := nat -> string -> captures -> option captures.

Fixpoint star_greedy (cls : ascii -> bool) (k : cont)
    (pos : nat) (s : string) (caps : captures) : option captures :=
  match s with
  | String c s' =>
      if cls c then
        match star_greedy cls k (S pos) s' caps with
        | Some m => Some m
        | None => k pos s caps
        end
      else k pos s caps
  | EmptyString => k pos s caps
  end.

Definition plus_greedy (cls : ascii -> bool) (k : cont)
    (pos : nat) (s : string) (caps : captures) : option captures :=
  match s with
  | String c s' => if cls c then star_greedy cls k (S pos) s' caps else None
  | EmptyString => None
  end.

Fixpoint rmatch (r : regex) (k : cont)
    (pos : nat) (s : string) (caps : captures) : option captures :=
  match r with
  | Bol => if (pos =? 0)%nat then k pos s caps else None
  | Chr c =>
      match s with
      | String c' s' => if Ascii.eqb c c' then k (S pos) s' caps else None
      | EmptyString => None
      end
  | Plus cls => plus_greedy cls k pos s caps
  | Group i r' =>
      rmatch r'
        (fun pos' s' caps' =>
           k pos' s' ((i, substring 0 (pos' - pos) s) :: caps'))
        pos s caps
  | Seq r1 r2 =>
      rmatch r1 (fun pos' s' caps' => rmatch r2 k pos' s' caps') pos s caps
  | Opt r' =>
      match rmatch r' k pos s caps with
      | Some m => Some m
      | None => k pos s caps
      end
  end.

(** [re.match(r, s)]: the match is anchored at the start of [s] and may end
    anywhere. *)
Definition re_match (r : regex) (s : string) : option captures :=
  rmatch r (fun _ _ caps => Some caps) 0 s [].

(** [m.group(i)]: [None] for a group that took no part in the match. *)
Fixpoint group (m : captures) (i : nat) : option string :=
  match m with
  | [] => None
  | (j, g) :: m' => if (i =? j)%nat then Some g else group m' i
  end.

(** r'(\d+)' *)
Definition digits_re : regex := Group 1 (Plus isdigit).

Definition nonspace (c : ascii) : bool := negb (isspace c).
Definition not_rbracket (c : ascii) : bool := negb (Ascii.eqb c "]").

(** r'^(\S+)\s+(\S+)(?:\s+\[([^\]]+)\])?' *)
Definition go_line_re : regex :=
  Seq Bol
   (Seq (Group 1 (Plus nonspace))
    (Seq (Plus isspace)
     (Seq (Group 2 (Plus nonspace))
          (Opt (Seq (Plus isspace)
                (Seq (Chr "[")
                 (Seq (Group 3 (Plus not_rbracket))
                      (Chr "]")))))))).

(** ** Values decoded from JSON *)

#[warnings="-register-all"] Inductive pyval : Type :=
| PNone
| PBool (b : bool)
| PInt (n : Z)
| PStr (s : string)
| PList (l : list pyval)
| PDict (d : list (string * pyval)).
    (* keys in insertion order, each key once, as [json.loads] builds it *)

Fixpoint lookup {A} (key : string) (d : list (string * A)) : option A :=
  match d with
  | [] => None
  | (k, v) :: d' => if String.eqb key k then Some v else lookup key d'
  end.

(** [a == b] *)
Fixpoint py_eq (a b : pyval) {struct a} : bool :=
  match a, b with
  | PNone, PNone => true
  | PBool x, PBool y => Bool.eqb x y
  | PBool x, PInt n => Z.eqb (Z.b2z x) n
  | PInt n, PBool x => Z.eqb n (Z.b2z x)
  | PInt x, PInt y => Z.eqb x y
  | PStr x, PStr y => String.eqb x y
  | PList xs, PList ys =>
      (fix all2 (xs ys : list pyval) : bool :=
         match xs, ys with
         | [], [] => true
         | x :: xs', y :: ys' => py_eq x y && all2 xs' ys'
         | _, _ => false
         end) xs ys
  | PDict d1, PDict d2 =>
      (length d1 =? length d2)%nat
      && (fix sub (d : list (string * pyval)) : bool :=
            match d with
            | [] => true
            | (k, v) :: d' =>
                match lookup k d2 with
                | Some v' => py_eq v v'
                | None => false
                end && sub d'
            end) d1
  | _, _ => false
  end.

(** [a != b] *)
Definition py_ne (a b : pyval) : bool := negb (py_eq a b).

(** [d.get(key, default)] *)
Definition py_get (d : pyval) (key : string) (default : pyval)
  : result pyval :=
  match d with
  | PDict items =>
      ok (match lookup key items with Some v => v | None => default end)
  | _ => raise AttributeError
  end.

(** [len(v)] *)
Definition py_len (v : pyval) : result Z :=
  match v with
  | PStr s => ok (Z.of_nat (String.length s))
  | PList l => ok (Z.of_nat (List.length l))
  | PDict d => ok (Z.of_nat (List.length d))
  | _ => raise TypeError
  end.

Fixpoint chars (s : string) : list pyval :=
  match s with
  | EmptyString => []
  | String c s' => PStr (String c EmptyString) :: chars s'
  end.

(** The values [for x in v] visits. *)
Definition py_iter (v : pyval) : result (list pyval) :=
  match v with
  | PStr s => ok (chars s)
  | PList l => ok l
  | PDict d => ok (map (fun kv => PStr (fst kv)) d)
  | _ => raise TypeError
  end.

(** [v[key]] for a string key. *)
Definition py_getitem (v : pyval) (key : string) : result pyval :=
  match v with
  | PDict d =>
      match lookup key d with
      | Some x => ok x
      | None => raise (KeyError key)
      end
  | _ => raise TypeError
  end.

(** [v.lstrip(chars)]: only a [str] has the method. *)
Definition py_lstrip (v : pyval) (chars : string) : result string :=
  match v with
  | PStr s => ok (lstrip chars s)
  | _ => raise AttributeError
  end.

(** [l[i]] on a list or tuple of integers. *)
Definition index (l : list Z) (i : nat) : result Z :=
  match nth_error l i with
  | Some x => ok x
  | None => raise IndexError
  end.

(** [bool(v)] *)
Definition py_truthy (v : pyval) : bool :=
  match v with
  | PNone => false
  | PBool b => b
  | PInt n => negb (Z.eqb n 0)
  | PStr s => nonempty s
  | PList l => negb (Nat.eqb (List.length l) 0)
  | PDict d => negb (Nat.eqb (List.length d) 0)
  end.

(** An entry of [m.groups()]. *)
Definition of_group (g : option string) : pyval :=
  match g with
  | Some s => PStr s
  | None => PNone
  end.

(** ** Data model

    The script's dictionaries with their fixed keys; a key that a
    dictionary may lack is an [option] field, read with [d.get(key, x)] as
    [default x]. *)

Definition default {A} (x : A) (o : option A) : A :=
  match o with
  | Some a => a
  | None => x
  end.

Record UpdateRecord : Type := {
  name : pyval;
  current : pyval;
  latest : pyval;
  change_type : string;
  kind : option pyval        (* absent in the records of the Go probe *)
}.

Record EcosystemResult : Type := {
  error : option string;
  module_path : option string;
  total_deps : option Z;
  outdated_count : option Z;
  updates : option (list UpdateRecord);
  security_advisories : option (list pyval)
}.

(** [{}] *)
Definition empty_result : EcosystemResult :=
  {| error := None; module_path := None; total_deps := None;
     outdated_count := None; updates := None;
     security_advisories := None |}.

(** [{"error": msg}] *)
Definition error_result (msg : string) : EcosystemResult :=
  {| error := Some msg; module_path := None; total_deps := None;
     outdated_count := None; updates := None;
     security_advisories := None |}.

Record Summary : Type := {
  total_rust_updates : Z;
  total_go_updates : Z;
  total_updates : Z;
  has_major_updates_flag : bool;       (* "has_major_updates" *)
  has_security_updates_flag : bool     (* "has_security_updates" *)
}.

Record Report : Type := {
  timestamp : string;
  project_root : string;
  rust : EcosystemResult;
  go_modules : list (string * EcosystemResult);   (* in insertion order *)
  summary : option Summary                        (* [None] is [{}] *)
}.

(** [d[key] = v] on a dictionary kept in insertion order. *)
Fixpoint dict_set {A} (key : string) (v : A) (d : list (string * A))
  : list (string * A) :=
  match d with
  | [] => [(key, v)]
  | (k, x) :: d' =>
      if String.eqb key k then (k, v) :: d' else (k, x) :: dict_set key v d'
  end.

(** [d.values()] *)
Definition values {A} (d : list (string * A)) : list A := map snd d.

(** [sum(...)] *)
Definition sum (l : list Z) : Z := fold_left Z.add l 0%Z.

(** ** Paths *)

Definition Path : Type := list string.   (* the parts below the root "/" *)

Definition joinpath (p : Path) (part : string) : Path :=
  (p ++ [part])%list.
Definition path_name (p : Path) : string := last p "".
Definition path_parent (p : Path) : Path := removelast p.

Fixpoint path_str (p : Path) : string :=
  match p with
  | [] => "/"
  | [part] => "/" ++ part
  | part :: rest => "/" ++ part ++ path_str rest
  end.

(** ** Printing computations *)

(** What the script writes to the console.  A rendered report is one item
    here; the lines of the human rendering are [print_report_lines]
    below.  A [print] that fails because the console cannot encode the text
    is not represented. *)
Inductive out_item : Type :=
| Line (text : string)
| JsonDump (report : Report)       (* print(json.dumps(report, indent=2)) *)
| HumanReport (report : Report).   (* print_report(report) *)

Definition M (A : Type) : Type := (list out_item * result A)%type.

Definition ret {A} (a : A) : M A := ([], inr a).
Definition throw {A} (e : exn) : M A := ([], inl e).
Definition lift {A} (r : result A) : M A := ([], r).
Definition print (o : out_item) : M unit := ([o], inr tt).

Definition bind {A B} (m : M A) (k : A -> M B) : M B :=
  match m with
  | (out, inl e) => (out, inl e)
  | (out, inr a) => let (out', r) := k a in ((out ++ out')%list, r)
  end.

Declare Scope io_scope.
Delimit Scope io_scope with io.
Notation "x <- m ;; k" := (bind m (fun x => k))
  (at level 61, m at next level, right associativity) : io_scope.
Notation "m ;;; k" := (bind m (fun _ => k))
  (at level 61, right associativity) : io_scope.

(** [sys.exit(code)] *)
Definition sys_exit {A} (code : Z) : M A := throw (SystemExit code).

(** How the process ends: [SystemExit] sets the exit status, any other
    exception that leaves [main] is a crash with a traceback (status 1). *)
Inductive termination : Type :=
| Exit (status : Z)
| Uncaught (e : exn).

Definition exit_status (t : termination) : Z :=
  match t with
  | Exit status => status
  | Uncaught _ => 1%Z
  end.

(** ** The outside world *)



(** What [subprocess.run(..., timeout=t)] does in a world: the outcomes of
    the call but an exception that is not an [Exception], such as the
    interrupt delivered to the interpreter while it waits. *)
Inductive proc_outcome : Type :=
| Completed (returncode : Z) (stdout stderr : string)
| TimeoutExpired
| RunError (cls msg : string).   (* any other [Exception] e: its class
                                    name and [str(e)] *)


Record World : Type := {
  resolve : string -> Path;              (* Path(s).resolve() *)
  path_exists : Path -> bool;
      (* p.exists(), when it returns: a PermissionError it lets through is
         not represented *)
  subprocess_run : list string -> Path -> Z -> proc_outcome;
                                         (* cmd, cwd, timeout *)
  check_output : list string -> (string * string) + string;
      (* subprocess.check_output(cmd).decode(): the text, or the class name
         and [str(e)] of the exception raised *)
  write_json : string -> Report -> option (string * string)
      (* open(file, 'w') and json.dump(report, f, indent=2): the class name
         and [str(e)] of the exception raised, if any *)
}.

(** An exception raised by a call into the outside world. *)
Definition external_error (e : string * string) : exn :=
  ExternalError (fst e) (snd e).

Definition external {A} (r : (string * string) + A) : result A :=
  match r with
  | inl e => raise (external_error e)
  | inr a => ok a
  end.

Record Args : Type := {
  args_output : string;            (* --output, "json" or "human" *)
  args_save : option string;       (* --save *)
  args_project_root : string       (* --project-root *)
}.

(** ** Version classifier *)

Section Analyzer.

(** [sys.get_int_max_str_digits()]: 0 switches the limit off; CPython's
    default is 4300. *)
Variable max_str_digits : nat.

(** [json.loads]: [None] stands for [json.JSONDecodeError].  A call that
    raises anything else, the [ValueError] on an integer beyond the digit
    limit or the [RecursionError] on a document nested too deep, is not
    represented. *)
Variable json_loads : string -> option pyval.

(** [sys.int_info.str_digits_check_threshold] *)
Definition str_digits_check_threshold : nat := 640.

Definition digit_value (c : ascii) : option Z :=
  if isdigit c then Some (Z.of_nat (code c) - 48)%Z else None.

Fixpoint int_digits (acc : Z) (s : string) : option Z :=
  match s with
  | EmptyString => Some acc
  | String c s' =>
      match digit_value c with
      | Some d => int_digits (10 * acc + d)%Z s'
      | None => None
      end
  end.

(** [int(s)] for [s] a run of decimal digits, the only strings the script
    converts.  CPython refuses a string of more than [max_str_digits] digits
    once it is longer than the check threshold.  Signs, blanks and
    underscores, which [int] also reads, are not represented: such a string
    is a [ValueError] here. *)
Definition py_int (s : string) : result Z :=
  let n := String.length s in
  if ((str_digits_check_threshold <? n) && (0 <? max_str_digits)
      && (max_str_digits <? n))%nat
  then raise ValueError
  else if nonempty s then
    match int_digits 0 s with
    | Some z => ok z
    | None => raise ValueError
    end
  else raise ValueError.

(** One turn of the loop of [parse_version]: the integer appended for
    [part].  The bare [except] turns any exception into 0. *)
Definition parse_part (part : string) : Z :=
  let attempt : result Z :=
    match re_match digits_re part with
    | Some numeric_part =>
        match group numeric_part 1 with
        | Some g => py_int g
        | None => raise TypeError
        end
    | None => ok 0%Z
    end in
  match attempt with
  | inr n => n
  | inl _ => 0%Z
  end.

(** [while len(result) < 3: result.append(0)] *)
Definition pad3 (l : list Z) : list Z :=
  l ++ repeat 0%Z (3 - List.length l).

Definition parse_version (version : pyval) : result (list Z) :=
  (version <- py_lstrip version "v" ;;
   let parts := firstn 3 (split "." version) in
   let result := map parse_part parts in
   let result := pad3 result in
   ok (firstn 3 result))%res.

Definition determine_semver_change (current latest : pyval) : string :=
  let attempt : result string :=
    (current_parts <- parse_version current ;;
     latest_parts <- parse_version latest ;;
     c0 <- index current_parts 0 ;;
     l0 <- index latest_parts 0 ;;
     if negb (Z.eqb c0 l0) then ok "major"
     else
       c1 <- index current_parts 1 ;;
       l1 <- index latest_parts 1 ;;
       if negb (Z.eqb c1 l1) then ok "minor"
       else
         c2 <- index current_parts 2 ;;
         l2 <- index latest_parts 2 ;;
         if negb (Z.eqb c2 l2) then ok "patch"
         else ok "other")%res in
  match attempt with
  | inr change => change
  | inl _ => "unknown"
  end.


(** ** Command runner *)

Variable w : World.


(** [run_command(cmd, cwd)] of an analyzer whose [project_root] is [root],
    in a world.  A [Path] is always true, so [cwd or self.project_root] is
    [cwd] unless [cwd] is [None]. *)
Definition run_command (root : Path) (cmd : list string) (cwd : option Path)
  : Z * string * string :=
  match subprocess_run w cmd (default root cwd) 30 with
  | Completed returncode stdout stderr => (returncode, stdout, stderr)
  | TimeoutExpired => (1%Z, "", "Command timed out")
  | RunError _ msg => (1%Z, "", msg)
  end.

(** ** Ecosystem probe: Cargo *)

(** The [for dep in dependencies] loop; the two entries of [result] it
    changes are threaded through. *)
Fixpoint cargo_loop (dependencies : list pyval)
    (outdated_count : Z) (updates : list UpdateRecord)
  : result (Z * list UpdateRecord) :=
  match dependencies with
  | [] => ok (outdated_count, updates)
  | dep :: rest =>
      (project <- py_getitem dep "project" ;;
       latest <- py_getitem dep "latest" ;;
       if py_ne project latest then
         let outdated_count := (outdated_count + 1)%Z in
         project <- py_getitem dep "project" ;;
         latest <- py_getitem dep "latest" ;;
         let change_type := determine_semver_change project latest in
         name <- py_getitem dep "name" ;;
         current <- py_getitem dep "project" ;;
         latest <- py_getitem dep "latest" ;;
         kind <- py_get dep "kind" (PStr "unknown") ;;
         let update_info :=
           {| name := name; current := current; latest := latest;
              change_type := change_type; kind := Some kind |} in
         cargo_loop rest outdated_count (updates ++ [update_info])
       else cargo_loop rest outdated_count updates)%res
  end.

(** The body of the [try] of [analyze_cargo_deps]; only
    [json.JSONDecodeError] is caught. *)
Definition cargo_try (stdout : string) : result EcosystemResult :=
  match json_loads stdout with
  | None => ok (error_result "Failed to parse cargo outdated output")
  | Some data =>
      (dependencies <- py_get data "dependencies" (PList []) ;;
       total <- py_len dependencies ;;
       items <- py_iter dependencies ;;
       st <- cargo_loop items 0 [] ;;
       ok {| error := None; module_path := None;
             total_deps := Some total;
             outdated_count := Some (fst st);
             updates := Some (snd st);
             security_advisories := Some [] |})%res
  end.

Definition analyze_cargo_deps (root : Path) : M EcosystemResult :=
  (print (Line "Analyzing Rust dependencies...") ;;;
   let '(ret_code, _, _) :=
     run_command root ["cargo"; "outdated"; "--version"] None in
   if negb (Z.eqb ret_code 0) then
     print (Line
       "cargo-outdated not found. Install with: cargo install cargo-outdated")
     ;;; ret (error_result "cargo-outdated not installed")
   else
     let '(ret_code, stdout, stderr) :=
       run_command root
         ["cargo"; "outdated"; "--workspace"; "--format"; "json"] None in
     if negb (Z.eqb ret_code 0) then
       ret (error_result ("Failed to run cargo outdated: " ++ stderr))
     else lift (cargo_try stdout))%io.

(** ** Ecosystem probe: Go *)

(** One turn of the [for line in ...] loop on the three entries of [result]
    it changes. *)
Definition go_line (st : Z * Z * list UpdateRecord) (line : string)
  : Z * Z * list UpdateRecord :=
  let '(total_deps, outdated_count, updates) := st in
  if negb (nonempty line) then st
  else
    let total_deps := (total_deps + 1)%Z in
    match re_match go_line_re line with
    | Some m =>
        let module_name := of_group (group m 1) in
        let current_version := of_group (group m 2) in
        let latest_version := of_group (group m 3) in
        if py_truthy latest_version && py_ne latest_version current_version
        then
          let outdated_count := (outdated_count + 1)%Z in
          let change_type :=
            determine_semver_change current_version latest_version in
          let update_info :=
            {| name := module_name; current := current_version;
               latest := latest_version; change_type := change_type;
               kind := None |} in
          (total_deps, outdated_count, (updates ++ [update_info])%list)
        else (total_deps, outdated_count, updates)
    | None => (total_deps, outdated_count, updates)
    end.

Definition newline : ascii := ascii_of_nat 10.

Definition analyze_go_deps (root module_path : Path) : M EcosystemResult :=
  (if negb (path_exists w (joinpath module_path "go.mod")) then
     ret (error_result "go.mod not found")
   else
     print (Line ("Analyzing Go dependencies in "
                  ++ path_name module_path ++ "...")) ;;;
     let '(ret_code, stdout, stderr) :=
       run_command root ["go"; "list"; "-u"; "-m"; "all"]
         (Some module_path) in
     if negb (Z.eqb ret_code 0) then
       ret (error_result ("Failed to run go list: " ++ stderr))
     else
       let '(total_deps, outdated_count, updates) :=
         fold_left go_line (split newline (strip stdout))
           (0%Z, 0%Z, []) in
       ret {| error := None;
              module_path := Some (path_str module_path);
              total_deps := Some total_deps;
              outdated_count := Some outdated_count;
              updates := Some updates;
              security_advisories := None |})%io.

(** ** Report builder *)

Definition is_major (update : UpdateRecord) : bool :=
  String.eqb (change_type update) "major".

Definition has_major_updates (report : Report) : bool :=
  let rust_updates := default [] (updates (rust report)) in
  if existsb is_major rust_updates then true
  else
    existsb
      (fun module => existsb is_major (default [] (updates module)))
      (values (go_modules report)).

Definition has_security_updates (report : Report) : bool := false.

(** One turn of [for module_dir in go_module_dirs]. *)
Definition go_module_step (root : Path) (report : Report)
    (module_dir : Path) : M Report :=
  (if path_exists w module_dir then
     let module_name :=
       path_name (path_parent module_dir) ++ "/" ++ path_name module_dir in
     module <- analyze_go_deps root module_dir ;;
     ret {| timestamp := timestamp report;
            project_root := project_root report;
            rust := rust report;
            go_modules := dict_set module_name module (go_modules report);
            summary := summary report |}
   else ret report)%io.

Fixpoint for_each {A S} (l : list A) (body : S -> A -> M S) (st : S)
  : M S :=
  match l with
  | [] => ret st
  | x :: rest => (st' <- body st x ;; for_each rest body st')%io
  end.

Definition generate_report (root : Path) : M Report :=
  (date <-
     lift (external (check_output w ["date"; "+%Y-%m-%d %H:%M:%S"])) ;;
   let report :=
     {| timestamp := strip date; project_root := path_str root;
        rust := empty_result; go_modules := []; summary := None |} in
   report <-
     (if path_exists w (joinpath root "Cargo.toml") then
        rust_result <- analyze_cargo_deps root ;;
        ret {| timestamp := timestamp report;
               project_root := project_root report;
               rust := rust_result;
               go_modules := go_modules report;
               summary := summary report |}
      else ret report) ;;
   let go_module_dirs :=
     [ joinpath (joinpath root "bindings") "go";
       joinpath (joinpath root "examples") "goclient" ] in
   report <- for_each go_module_dirs (go_module_step root) report ;;
   let total_rust_updates := default 0%Z (outdated_count (rust report)) in
   let total_go_updates :=
     sum (map (fun module => default 0%Z (outdated_count module))
              (values (go_modules report))) in
   ret {| timestamp := timestamp report;
          project_root := project_root report;
          rust := rust report;
          go_modules := go_modules report;
          summary := Some
            {| total_rust_updates := total_rust_updates;
               total_go_updates := total_go_updates;
               total_updates := (total_rust_updates + total_go_updates)%Z;
               has_major_updates_flag := has_major_updates report;
               has_security_updates_flag := has_security_updates report
            |} |})%io.

(** ** Entry point *)

Definition print_report (report : Report) : M unit :=
  print (HumanReport report).

(** [main()] after [parser.parse_args()] has produced [args]. *)
Definition main (args : Args) : M unit :=
  (let root := resolve w (args_project_root args) in
   (if negb (path_exists w root) then
      print (Line ("Project root not found: " ++ path_str root)) ;;;
      sys_exit 1
    else ret tt) ;;;
   report <- generate_report root ;;
   (if String.eqb (args_output args) "json" then print (JsonDump report)
    else print_report report) ;;;
   (match args_save args with
    | Some file =>
        if nonempty file then
          match write_json w file report with
          | Some e => throw (external_error e)
          | None =>
              print (Line (String newline "Report saved to: " ++ file))
          end
        else ret tt
    | None => ret tt
    end) ;;;
   match summary report with
   | Some s => if (total_updates s >? 0)%Z then sys_exit 1 else ret tt
   | None => throw (KeyError "total_updates")
   end)%io.

(** What the operating system sees of [main()]. *)
Definition run_main (args : Args) : list out_item * termination :=
  let (out, r) := main args in
  (out,
   match r with
   | inr _ => Exit 0
   | inl (SystemExit status) => Exit status
   | inl e => Uncaught e
   end).

End Analyzer.

(** ** Report renderer

    The lines [print_report] writes.  A line is kept as its template with
    the values it interpolates, as they are before [str] formats them. *)

(** The pictographs of [get_change_icon], by colour: red, yellow, green
    and blue circles, and the white one. *)
Inductive icon : Type := Red | Yellow | Green | Blue | White.

Definition icons : list (string * icon) :=
  [("major", Red); ("minor", Yellow); ("patch", Green); ("other", Blue);
   ("unknown", White)].

Definition get_change_icon (change_type : string) : icon :=
  default White (lookup change_type icons).

Inductive report_line : Type :=
| Text (text : string)              (* a line without interpolation *)
| Generated (timestamp : string)    (* Generated: {report['timestamp']} *)
| Project (project_root : string)
    (* Project: {Path(report['project_root']).name} *)
| TotalUpdates (n : Z)
    (* Total Updates Available: {summary['total_updates']} *)
| RustHeader (outdated_count : Z)
    (* Rust Dependencies ({outdated_count} updates) *)
| GoHeader (module_name : string) (outdated_count : Z)
    (* Go Module: {module_name} ({outdated_count} updates) *)
| ErrorLine (msg : string)          (* Error: {data['error']} *)
| UpdateLine (change_icon : icon) (name current latest : pyval).
    (* {change_icon} {name}: {current} -> {latest} *)

(** [s * n] *)
Fixpoint str_mul (s : string) (n : nat) : string :=
  match n with
  | O => EmptyString
  | S n' => s ++ str_mul s n'
  end.

Definition update_line (update : UpdateRecord) : report_line :=
  UpdateLine (get_change_icon (change_type update))
    (name update) (current update) (latest update).

(** What a section prints under its header, the same in the Rust section
    and in a Go section: the error, else the updates, else that all is up
    to date; then an empty line. *)
Definition section_body (data : EcosystemResult) : list report_line :=
  ((if nonempty (default "" (error data)) then
     [ErrorLine (default "" (error data))]
   else if negb (Nat.eqb (List.length (default [] (updates data))) 0) then
     map update_line (default [] (updates data))
   else [Text "  All dependencies up to date"])
  ++ [Text ""])%list.

(** The Rust section is printed only when the Rust result has the key
    "updates". *)
Definition rust_section (report : Report) : list report_line :=
  match updates (rust report) with
  | Some _ =>
      ([RustHeader (default 0%Z (outdated_count (rust report)));
        Text (str_mul "-" 40)]
       ++ section_body (rust report))%list
  | None => []
  end.

Definition go_section (item : string * EcosystemResult) : list report_line :=
  let (module_name, module_data) := item in
  ([GoHeader module_name (default 0%Z (outdated_count module_data));
    Text (str_mul "-" 40)]
   ++ section_body module_data)%list.

(** The lines [print_report(report)] writes when the console takes every
    line, and the [KeyError] that stops it at the total when the summary of
    the report is still empty.  A [print] that fails because the console
    cannot encode a line is not represented. *)
Definition print_report_lines (report : Report)
  : list report_line * result unit :=
  let head :=
    [Text (String newline (str_mul "=" 60));
     Text "DEPENDENCY ANALYSIS REPORT";
     Text (str_mul "=" 60);
     Generated (timestamp report);
     Project (project_root report)] in
  match summary report with
  | None => (head, raise (KeyError "total_updates"))
  | Some summary =>
      ((head
       ++ [TotalUpdates (total_updates summary)]
       ++ (if has_major_updates_flag summary
           then [Text "Major version updates detected!"] else [])
       ++ [Text ""]
       ++ rust_section report
       ++ flat_map go_section (go_modules report)
       ++ [Text "Run 'just deps-update' to update dependencies";
           Text "Run 'just deps-check' for a dry-run"])%list,
       ok tt)
  end.

(** ** Sample inputs

    Concrete interpreters and worlds on which the statements below are
    exercised. *)

(** [sys.int_info.default_max_str_digits] *)
Definition default_max_str_digits : nat := 4300.

(** [n] copies of [c]. *)
Fixpoint rep_char (c : ascii) (n : nat) : string :=
  match n with
  | O => EmptyString
  | S n' => String c (rep_char c n')
  end.

(** A decoder that knows one document: [text] stands for the JSON text that
    [json.loads] decodes to [data]; any other text is not JSON. *)
Definition loads_of (text : string) (data : pyval)
  : string -> option pyval :=
  fun s => if String.eqb s text then Some data else None.

(** A world in which every path exists, [cargo] prints [cargo_stdout], any
    other command prints [go_stdout], all with exit code 0, the date
    utility answers, and writing the report ends as [save_outcome] says. *)
Definition sample_world (cargo_stdout go_stdout : string)
    (save_outcome : option (string * string)) : World :=
  {| resolve := fun s => [s];
     path_exists := fun _ => true;
     subprocess_run := fun cmd _ _ =>
       match cmd with
       | "cargo" :: _ => Completed 0 cargo_stdout ""
       | _ => Completed 0 go_stdout ""
       end;
     check_output := fun _ => inr "2025-01-01 00:00:00";
     write_json := fun _ _ => save_outcome |}.

Definition entry (fields : list (string * string)) : pyval :=
  PDict (map (fun kv => (fst kv, PStr (snd kv))) fields).

(** {"dependencies": [{"name": "serde", "project": "1.0.1",
    "latest": "2.0.0"}, {"name": "log", "project": "0.4", "latest": "0.4",
    "kind": "Normal"}]} *)
Definition sample_deps : pyval :=
  PDict [("dependencies",
          PList [entry [("name", "serde"); ("project", "1.0.1");
                        ("latest", "2.0.0")];
                 entry [("name", "log"); ("project", "0.4");
                        ("latest", "0.4"); ("kind", "Normal")]])].

(** {"dependencies": [{"project": "1.0", "latest": "1.0"}]}: an entry
    without a "name". *)
Definition nameless_deps : pyval :=
  PDict [("dependencies",
          PList [entry [("project", "1.0"); ("latest", "1.0")]])].

(** {"dependencies": [{"name": "serde", "project": "1.0.1"}]}: an entry
    without a "latest". *)
Definition latestless_deps : pyval :=
  PDict [("dependencies",
          PList [entry [("name", "serde"); ("project", "1.0.1")]])].

(** The output of [go list -u -m all] in a module: the main module alone on
    its line, then its requirements. *)
Definition sample_go_stdout : string :=
  "example.com/mod" ++ String newline
  ("github.com/a/b v1.2.3 [v1.3.0]" ++ String newline
  ("github.com/c/d v0.1.0" ++ String newline "")).

(** A world whose project root does not exist. *)
Definition missing_root_world : World :=
  {| resolve := fun s => [s];
     path_exists := fun _ => false;
     subprocess_run := fun _ _ _ => Completed 0 "" "";
     check_output := fun _ => inr "2025-01-01 00:00:00";
     write_json := fun _ _ => None |}.

(** A world with a Cargo.toml at the root and no Go module, in which
    [cargo outdated] is not installed. *)
Definition no_cargo_outdated_world : World :=
  {| resolve := fun s => [s];
     path_exists := fun p =>
       match p with
       | [_] | [_; "Cargo.toml"] => true
       | _ => false
       end;
     subprocess_run := fun _ _ _ =>
       Completed 101 "" "error: no such command: outdated";
     check_output := fun _ => inr "2025-01-01 00:00:00";
     write_json := fun _ _ => None |}.

Definition sample_args (save : option string) : Args :=
  {| args_output := "json"; args_save := save;
     args_project_root := "proj" |}.

(** The report of the sample world whose Cargo output decodes to
    [sample_deps]. *)
Definition sample_report : Report :=
  Eval vm_compute in
    match
      snd (generate_report default_max_str_digits
             (loads_of "DEPS" sample_deps)
             (sample_world "DEPS" sample_go_stdout None) ["proj"])
    with
    | inr report => report
    | inl _ =>
        {| timestamp := ""; project_root := ""; rust := empty_result;
           go_modules := []; summary := None |}
    end.

(** The report of [no_cargo_outdated_world]. *)
Definition no_cargo_outdated_report : Report :=
  Eval vm_compute in
    match
      snd (generate_report default_max_str_digits
             (loads_of "DEPS" sample_deps)
             no_cargo_outdated_world ["proj"])
    with
    | inr report => report
    | inl _ =>
        {| timestamp := ""; project_root := ""; rust := empty_result;
           go_modules := []; summary := None |}
    end.

(** A world in which every path exists but a go.mod, and no command
    succeeds. *)
Definition broken_world : World :=
  {| resolve := fun s => [s];
     path_exists := fun p => negb (String.eqb (path_name p) "go.mod");
     subprocess_run := fun _ _ _ => Completed 127 "" "command not found";
     check_output := fun _ => inr "2025-01-01 00:00:00";
     write_json := fun _ _ => None |}.

(** The report of [broken_world]. *)
Definition broken_report : Report :=
  Eval vm_compute in
    match
      snd (generate_report default_max_str_digits
             (loads_of "DEPS" sample_deps) broken_world ["proj"])
    with
    | inr report => report
    | inl _ =>
        {| timestamp := ""; project_root := ""; rust := empty_result;
           go_modules := []; summary := None |}
    end.

(** A world in which every path exists and every command times out. *)
Definition timeout_world : World :=
  {| resolve := fun s => [s];
     path_exists := fun _ => true;
     subprocess_run := fun _ _ _ => TimeoutExpired;
     check_output := fun _ => inr "2025-01-01 00:00:00";
     write_json := fun _ _ => None |}.

(** A world in which every path exists and no command can be launched. *)
Definition no_tools_world : World :=
  {| resolve := fun s => [s];
     path_exists := fun _ => true;
     subprocess_run := fun _ _ _ =>
       RunError "FileNotFoundError" "[Errno 2] No such file or directory";
     check_output := fun _ => inr "2025-01-01 00:00:00";
     write_json := fun _ _ => None |}.








(** The longest prefix of [s] whose characters are all in [cls]. *)
Fixpoint take_while (cls : ascii -> bool) (s : string) : string :=
  match s with
  | EmptyString => EmptyString
  | String c s' => if cls c then String c (take_while cls s') else EmptyString
  end.

Fixpoint drop_while (cls : ascii -> bool) (s : string) : string :=
  match s with
  | EmptyString => EmptyString
  | String c s' => if cls c then drop_while cls s' else s
  end.

(** ** Vocabulary of the statements *)

Definition is_some {A} (o : option A) : bool :=
  match o with
  | Some _ => true
  | None => false
  end.

Definition is_dict (v : pyval) : bool :=
  match v with
  | PDict _ => true
  | _ => false
  end.

(** [key in v], for [v] a dictionary. *)
Definition has_key (key : string) (v : pyval) : bool :=
  match v with
  | PDict d => is_some (lookup key d)
  | _ => false
  end.

(** The entry has both versions and they differ. *)
Definition cargo_differs (dep : pyval) : bool :=
  match py_getitem dep "project", py_getitem dep "latest" with
  | inr project, inr latest => py_ne project latest
  | _, _ => false
  end.

(** The entry makes the loop of the Cargo probe look up a key it lacks. *)
Definition cargo_entry_lacks (dep : pyval) : bool :=
  negb (has_key "project" dep) || negb (has_key "latest" dep)
  || (cargo_differs dep && negb (has_key "name" dep)).

(** [update] is the record the Cargo probe builds for [dep]. *)
Definition cargo_record (max_str_digits : nat) (dep : pyval)
    (update : UpdateRecord) : Prop :=
  py_getitem dep "name" = inr (name update)
  /\ py_getitem dep "project" = inr (current update)
  /\ py_getitem dep "latest" = inr (latest update)
  /\ change_type update
     = determine_semver_change max_str_digits (current update)
         (latest update)
  /\ exists k,
       kind update = Some k
       /\ py_get dep "kind" (PStr "unknown") = inr k.

(** The line matches the pattern of the Go probe. *)
Definition go_matches (line : string) : bool :=
  is_some (re_match go_line_re line).

(** The line carries a latest version and it differs from the current
    one. *)
Definition go_differs (line : string) : bool :=
  match re_match go_line_re line with
  | Some m =>
      match group m 2, group m 3 with
      | Some current_version, Some latest_version =>
          negb (String.eqb latest_version current_version)
      | _, _ => false
      end
  | None => false
  end.

(** [update] is the record the Go probe builds for [line]. *)
Definition go_record (max_str_digits : nat) (line : string)
    (update : UpdateRecord) : Prop :=
  exists m module_name current_version latest_version,
    re_match go_line_re line = Some m
    /\ group m 1 = Some module_name
    /\ group m 2 = Some current_version
    /\ group m 3 = Some latest_version
    /\ name update = PStr module_name
    /\ current update = PStr current_version
    /\ latest update = PStr latest_version
    /\ change_type update
       = determine_semver_change max_str_digits (PStr current_version)
           (PStr latest_version)
    /\ kind update = None.

(** The lines the loop of the Go probe counts. *)
Definition go_lines (stdout : string) : list string :=
  filter nonempty (split newline (strip stdout)).

(** The entries the loop of the Cargo probe visits when the tool printed
    [stdout]; none when the output does not get that far. *)
Definition cargo_dependencies (json_loads : string -> option pyval)
    (stdout : string) : list pyval :=
  match json_loads stdout with
  | Some data =>
      match py_get data "dependencies" (PList []) with
      | inr dependencies =>
          match py_iter dependencies with
          | inr items => items
          | inl _ => []
          end
      | inl _ => []
      end
  | None => []
  end.

Definition cargo_outdated_cmd : list string :=
  ["cargo"; "outdated"; "--workspace"; "--format"; "json"].

Definition go_list_cmd : list string := ["go"; "list"; "-u"; "-m"; "all"].

Definition date_cmd : list string := ["date"; "+%Y-%m-%d %H:%M:%S"].

(** Every update record of a report: those of the Rust result, then those
    of each Go module. *)
Definition report_updates (report : Report) : list UpdateRecord :=
  default [] (updates (rust report))
  ++ flat_map (fun module => default [] (updates module))
       (values (go_modules report)).

(** The sum of the [outdated_count] of every ecosystem result of a report,
    a result without that key counting for 0. *)
Definition outdated_total (report : Report) : Z :=
  (default 0 (outdated_count (rust report))
   + sum (map (fun module => default 0 (outdated_count module))
            (values (go_modules report))))%Z.

(** The ecosystem results of a report. *)
Definition report_results (report : Report) : list EcosystemResult :=
  rust report :: values (go_modules report).

(** The [--save] step of [main] writes nothing or writes without error. *)
Definition save_succeeds (w : World) (args : Args) (report : Report)
  : Prop :=
  match args_save args with
  | Some file => nonempty file = false \/ write_json w file report = None
  | None => True
  end.

(** A Go module result of a report is what the Go probe returned for some
    module directory. *)
Definition from_go_probe (max_str_digits : nat) (w : World) (root : Path)
    (entry : string * EcosystemResult) : Prop :=
  exists module_path out,
    analyze_go_deps max_str_digits w root module_path
    = (out, inr (snd entry)).

(** The exceptions the interpreter raises on a value of the wrong shape. *)
Definition shape_error (e : exn) : Prop :=
  e = AttributeError \/ e = TypeError \/ exists key, e = KeyError key.

Definition is_str (v : pyval) : bool :=
  match v with
  | PStr _ => true
  | _ => false
  end.

(** [s] has no "." *)
Definition no_dot (s : string) : bool := negb (mem_char "." s).

(** [s] joined to [t] by a "." *)
Definition dotted (s t : string) : string := s ++ String "." t.

(** Every character of [s] is in [cls]. *)
Fixpoint all_chars (cls : ascii -> bool) (s : string) : bool :=
  match s with
  | EmptyString => true
  | String c s' => cls c && all_chars cls s'
  end.

(** The result of a probe that found nothing to report; the two arguments
    are the keys only one of the probes sets. *)
Definition nothing_outdated (module_path : option string)
    (advisories : option (list pyval)) : EcosystemResult :=
  {| error := None; module_path := module_path;
     total_deps := Some 0%Z; outdated_count := Some 0%Z;
     updates := Some []; security_advisories := advisories |}.

(** What the Go probe guarantees of each of its update records. *)
Definition go_record_well_formed (update : UpdateRecord) : Prop :=
  exists module_name current_version latest_version,
    name update = PStr module_name
    /\ current update = PStr current_version
    /\ latest update = PStr latest_version
    /\ kind update = None
    /\ nonempty module_name = true
    /\ all_chars nonspace module_name = true
    /\ nonempty current_version = true
    /\ all_chars nonspace current_version = true
    /\ nonempty latest_version = true
    /\ all_chars not_rbracket latest_version = true
    /\ latest_version <> current_version
    /\ In (change_type update) ["major"; "minor"; "patch"; "other"].

(** [s] is a non-empty run of characters of [cls]. *)
Definition run_of (cls : ascii -> bool) (s : string) : bool :=
  nonempty s && all_chars cls s.

(** The record the Go probe builds from the three fields of a line. *)
Definition go_update (max_str_digits : nat)
    (module_name current_version latest_version : string) : UpdateRecord :=
  {| name := PStr module_name; current := PStr current_version;
     latest := PStr latest_version;
     change_type :=
       determine_semver_change max_str_digits (PStr current_version)
         (PStr latest_version);
     kind := None |}.

(** The directories [generate_report] looks for a Go module in, each with
    the key its result is filed under. *)
Definition go_module_candidates (root : Path) : list (string * Path) :=
  [("bindings/go", joinpath (joinpath root "bindings") "go");
   ("examples/goclient", joinpath (joinpath root "examples") "goclient")].

(** [entry] of [go_modules] is the key of [candidate] with what the Go
    probe returns for its directory. *)
Definition go_module_entry (max_str_digits : nat) (w : World) (root : Path)
    (entry : string * EcosystemResult) (candidate : string * Path) : Prop :=
  fst entry = fst candidate
  /\ exists out,
       analyze_go_deps max_str_digits w root (snd candidate)
       = (out, inr (snd entry)).

Definition is_line (o : out_item) : bool :=
  match o with
  | Line _ => true
  | _ => false
  end.

(** What [main] prints for the report: one rendering, chosen by
    [--output]. *)
Definition rendering (args : Args) (report : Report) : out_item :=
  if String.eqb (args_output args) "json" then JsonDump report
  else HumanReport report.

(** What [main] prints after a successful [--save]. *)
Definition saved_message (args : Args) : list out_item :=
  match args_save args with
  | Some file =>
      if nonempty file
      then [Line (String newline "Report saved to: " ++ file)]
      else []
  | None => []
  end.

Definition is_update_line (line : report_line) : bool :=
  match line with
  | UpdateLine _ _ _ _ => true
  | _ => false
  end.

Definition major_warning : report_line :=
  Text "Major version updates detected!".

Definition is_major_warning (line : report_line) : bool :=
  match line with
  | Text text => String.eqb text "Major version updates detected!"
  | _ => false
  end.

Definition is_rust_header (line : report_line) : bool :=
  match line with
  | RustHeader _ => true
  | _ => false
  end.

(** The report without its Rust result, as when the root has no
    Cargo.toml. *)
Definition without_rust (report : Report) : Report :=
  {| timestamp := timestamp report; project_root := project_root report;
     rust := empty_result; go_modules := go_modules report;
     summary := summary report |}.

(** * Properties *)

Section Properties.

Variable max_str_digits : nat.
Variable json_loads : string -> option pyval.

(** ** Version classifier *)

Lemma digit_value_nonneg (c : ascii) (d : Z) :
  digit_value c = Some d -> (0 <= d)%Z.
Proof.
  unfold digit_value, isdigit.
  destruct (48 <=? code c)%nat eqn:Hlo; simpl; try discriminate.
  destruct (code c <=? 57)%nat; try discriminate.
  intros H; injection H as <-.
  apply Nat.leb_le in Hlo. lia.
Qed.

Lemma int_digits_nonneg (s : string) :
  forall acc z, (0 <= acc)%Z -> int_digits acc s = Some z -> (0 <= z)%Z.
Proof.
  induction s as [|c s IH]; simpl; intros acc z Hacc H.
  - injection H as <-. exact Hacc.
  - destruct (digit_value c) as [d|] eqn:Hd; try discriminate.
    apply digit_value_nonneg in Hd.
    apply (IH (10 * acc + d)%Z); [lia | exact H].
Qed.

Lemma py_int_nonneg (s : string) (z : Z) :
  py_int max_str_digits s = inr z -> (0 <= z)%Z.
Proof.
  unfold py_int, raise, ok.
  destruct (_ && _ && _); try discriminate.
  destruct (nonempty s); try discriminate.
  destruct (int_digits 0 s) as [z'|] eqn:Hz; try discriminate.
  intros H; injection H as <-.
  apply (int_digits_nonneg s 0%Z); [lia | exact Hz].
Qed.

Lemma parse_part_nonneg (part : string) :
  (0 <= parse_part max_str_digits part)%Z.
Proof.
  unfold parse_part.
  destruct (re_match digits_re part) as [m|]; simpl; try lia.
  destruct (group m 1) as [g|]; simpl; try lia.
  destruct (py_int max_str_digits g) as [e|z] eqn:Hz; try lia.
  eapply py_int_nonneg; eassumption.
Qed.

Lemma pad3_three (l : list Z) :
  Forall (fun z => 0 <= z)%Z l ->
  exists a b c,
    firstn 3 (pad3 l) = [a; b; c] /\ (0 <= a)%Z /\ (0 <= b)%Z /\ (0 <= c)%Z.
Proof.
  intros Hl. unfold pad3.
  destruct l as [|a [|b [|c l]]]; simpl.
  - exists 0%Z, 0%Z, 0%Z. repeat split; lia.
  - inversion Hl; subst. exists a, 0%Z, 0%Z. repeat split; (assumption || lia).
  - inversion Hl as [|? ? Ha Hl']; subst. inversion Hl'; subst.
    exists a, b, 0%Z. repeat split; (assumption || lia).
  - inversion Hl as [|? ? Ha Hl1]; subst.
    inversion Hl1 as [|? ? Hb Hl2]; subst.
    inversion Hl2 as [|? ? Hc Hl3]; subst.
    exists a, b, c. repeat split; assumption.
Qed.

Lemma parse_version_str (s : string) :
  parse_version max_str_digits (PStr s)
  = inr (firstn 3 (pad3 (map (parse_part max_str_digits)
                             (firstn 3 (split "." (lstrip "v" s)))))).
Proof. reflexivity. Qed.

Lemma parse_version_triple (s : string) :
  exists a b c,
    parse_version max_str_digits (PStr s) = inr [a; b; c]
    /\ (0 <= a)%Z /\ (0 <= b)%Z /\ (0 <= c)%Z.
Proof.
  rewrite parse_version_str.
  destruct (pad3_three (map (parse_part max_str_digits)
                            (firstn 3 (split "." (lstrip "v" s)))))
    as (a & b & c & Heq & Hnn).
  - apply Forall_forall. intros z Hz.
    apply in_map_iff in Hz. destruct Hz as (part & <- & _).
    apply parse_part_nonneg.
  - exists a, b, c. rewrite Heq. split; [reflexivity | exact Hnn].
Qed.

(** A segment of at most 640 digits is converted whatever the limit is. *)
Lemma py_int_short (s : string) :
  (String.length s <= str_digits_check_threshold)%nat ->
  py_int max_str_digits s
  = if nonempty s then
      match int_digits 0 s with
      | Some z => ok z
      | None => raise ValueError
      end
    else raise ValueError.
Proof.
  intros Hlen. unfold py_int.
  apply Nat.ltb_ge in Hlen. rewrite Hlen. reflexivity.
Qed.

(** ** Segments of a version

    What the pattern of [parse_version] captures, and what a segment is
    worth. *)

(** With a continuation that accepts whatever is left, a greedy repetition
    takes the longest run. *)
Lemma star_greedy_longest (cls : ascii -> bool) (k : cont) (s : string) :
  (forall pos s' caps, k pos s' caps <> None) ->
  forall pos caps,
    star_greedy cls k pos s caps
    = k (pos + String.length (take_while cls s))%nat (drop_while cls s) caps.
Proof.
  intros Hk. induction s as [|c s IH]; simpl; intros pos caps.
  - rewrite Nat.add_0_r. reflexivity.
  - destruct (cls c); simpl.
    + rewrite IH, Nat.add_succ_r. cbn [Nat.add].
      destruct (k (S (pos + String.length (take_while cls s)))
                  (drop_while cls s) caps) eqn:Hres;
        [reflexivity | exfalso; eapply Hk, Hres].
    + rewrite Nat.add_0_r. reflexivity.
Qed.

Lemma substring_take_while (cls : ascii -> bool) (s : string) :
  substring 0 (String.length (take_while cls s)) s = take_while cls s.
Proof.
  induction s as [|c s IH]; simpl; [reflexivity|].
  destruct (cls c); simpl; [rewrite IH|]; reflexivity.
Qed.

(** [re.match(r'(\d+)', part)] succeeds exactly when [part] starts with a
    digit, and its group is then the leading run of digits. *)
Lemma re_match_digits_re (part : string) :
  re_match digits_re part
  = if nonempty (take_while isdigit part)
    then Some [(1%nat, take_while isdigit part)]
    else None.
Proof.
  unfold re_match, digits_re. cbn [rmatch]. unfold plus_greedy.
  destruct part as [|c s]; [reflexivity|]. cbn [take_while].
  destruct (isdigit c) eqn:Hc; [|reflexivity].
  rewrite star_greedy_longest by discriminate.
  cbn [nonempty]. rewrite Nat.sub_0_r. cbn [Nat.add substring].
  rewrite substring_take_while. reflexivity.
Qed.

Lemma int_digits_take_while (s : string) :
  forall acc, exists z, int_digits acc (take_while isdigit s) = Some z.
Proof.
  induction s as [|c s IH]; simpl; intros acc.
  - exists acc. reflexivity.
  - destruct (isdigit c) eqn:Hc; simpl.
    + unfold digit_value. rewrite Hc. apply IH.
    + exists acc. reflexivity.
Qed.

(** The integer of a segment: 0 when it does not start with a digit or
    when its leading run of digits is beyond the interpreter's limit, else
    the value of that run. *)
Lemma parse_part_spec (part : string) :
  parse_part max_str_digits part
  = let run := take_while isdigit part in
    let n := String.length run in
    if nonempty run then
      if ((str_digits_check_threshold <? n) && (0 <? max_str_digits)
          && (max_str_digits <? n))%nat
      then 0%Z
      else default 0%Z (int_digits 0 run)
    else 0%Z.
Proof.
  unfold parse_part. rewrite re_match_digits_re. cbv zeta.
  destruct (nonempty (take_while isdigit part)) eqn:Hne; [|reflexivity].
  cbn [group Nat.eqb]. unfold py_int. rewrite Hne.
  destruct (_ && _ && _); [reflexivity|].
  destruct (int_digits_take_while part 0%Z) as (z & ->). reflexivity.
Qed.

(** C2.  [parse_version] is total on strings: whatever the string, it
    returns, without raising, three integers, none of them negative; and it
    maps "v2.3.4" to (2,3,4), "1.2" to (1,2,0), "3.0.0-alpha" to (3,0,0),
    "abc" to (0,0,0) and the empty string to (0,0,0). *)
Theorem parse_version_total :
  (forall s : string,
     exists a b c,
       parse_version max_str_digits (PStr s) = inr [a; b; c]
       /\ (0 <= a)%Z /\ (0 <= b)%Z /\ (0 <= c)%Z)
  /\ parse_version max_str_digits (PStr "v2.3.4") = inr [2; 3; 4]%Z
  /\ parse_version max_str_digits (PStr "1.2") = inr [1; 2; 0]%Z
  /\ parse_version max_str_digits (PStr "3.0.0-alpha") = inr [3; 0; 0]%Z
  /\ parse_version max_str_digits (PStr "abc") = inr [0; 0; 0]%Z
  /\ parse_version max_str_digits (PStr "") = inr [0; 0; 0]%Z.
Proof.
  split; [exact parse_version_triple | repeat split; reflexivity].
Qed.

(** The change type of two parsed versions: the first position at which
    they differ. *)
Lemma determine_semver_change_parsed (current latest : pyval)
    (a b c a' b' c' : Z) :
  parse_version max_str_digits current = inr [a; b; c] ->
  parse_version max_str_digits latest = inr [a'; b'; c'] ->
  determine_semver_change max_str_digits current latest
  = if negb (a =? a')%Z then "major"
    else if negb (b =? b')%Z then "minor"
    else if negb (c =? c')%Z then "patch"
    else "other".
Proof.
  intros Hc Hl. unfold determine_semver_change.
  rewrite Hc, Hl. simpl.
  destruct (a =? a')%Z; simpl; [|reflexivity].
  destruct (b =? b')%Z; simpl; [|reflexivity].
  destruct (c =? c')%Z; reflexivity.
Qed.

(** C1.  On two version strings [determine_semver_change] parses both with
    [parse_version] and answers "major" when the first components differ,
    else "minor" when the second do, else "patch" when the third do, else
    "other"; so ("1.2.3","2.0.0") is "major", ("1.2.3","1.3.0") is "minor",
    ("1.2.3","1.2.9") is "patch" and ("1.2.3","1.2.3") is "other". *)
Theorem determine_semver_change_classifies :
  (forall current latest : string,
     exists a b c a' b' c',
       parse_version max_str_digits (PStr current) = inr [a; b; c]
       /\ parse_version max_str_digits (PStr latest) = inr [a'; b'; c']
       /\ determine_semver_change max_str_digits (PStr current) (PStr latest)
          = if negb (a =? a')%Z then "major"
            else if negb (b =? b')%Z then "minor"
            else if negb (c =? c')%Z then "patch"
            else "other")
  /\ determine_semver_change max_str_digits (PStr "1.2.3") (PStr "2.0.0")
     = "major"
  /\ determine_semver_change max_str_digits (PStr "1.2.3") (PStr "1.3.0")
     = "minor"
  /\ determine_semver_change max_str_digits (PStr "1.2.3") (PStr "1.2.9")
     = "patch"
  /\ determine_semver_change max_str_digits (PStr "1.2.3") (PStr "1.2.3")
     = "other".
Proof.
  split; [|repeat split; reflexivity].
  intros current latest.
  destruct (parse_version_triple current) as (a & b & c & Hc & _).
  destruct (parse_version_triple latest) as (a' & b' & c' & Hl & _).
  exists a, b, c, a', b', c'.
  repeat split; try assumption.
  apply determine_semver_change_parsed; assumption.
Qed.

Lemma lstrip_rep_char (n : nat) (s : string) :
  lstrip "v" (rep_char "v" n ++ s) = lstrip "v" s.
Proof.
  induction n as [|n IH]; simpl; [reflexivity | exact IH].
Qed.

(** C3, as the code has it.  [parse_version] drops every leading "v", not
    one: any number of them in front of a string changes nothing, and
    "vv2.3.4" parses to (2,3,4). *)
Theorem parse_version_strips_every_v :
  (forall (n : nat) (s : string),
     parse_version max_str_digits (PStr (rep_char "v" n ++ s))
     = parse_version max_str_digits (PStr s))
  /\ parse_version max_str_digits (PStr "vv2.3.4") = inr [2; 3; 4]%Z.
Proof.
  split; [|reflexivity].
  intros n s. rewrite !parse_version_str, lstrip_rep_char. reflexivity.
Qed.

(** ** Command runner *)


(** ** Regular expressions *)

Lemma star_greedy_inv (cls : ascii -> bool) (k : cont) (s : string) :
  forall pos caps m,
    star_greedy cls k pos s caps = Some m ->
    exists n s', (n <= String.length s)%nat /\ k (pos + n)%nat s' caps = Some m.
Proof.
  induction s as [|c s IH]; simpl; intros pos caps m H.
  - exists 0%nat, EmptyString. rewrite Nat.add_0_r. split; [lia | exact H].
  - destruct (cls c).
    + destruct (star_greedy cls k (S pos) s caps) as [m'|] eqn:Hrec.
      * injection H as <-. apply IH in Hrec.
        destruct Hrec as (n & s' & Hn & Hk).
        exists (S n), s'. split; [lia|].
        rewrite Nat.add_succ_r. exact Hk.
      * exists 0%nat, (String c s). rewrite Nat.add_0_r.
        split; [lia | exact H].
    + exists 0%nat, (String c s). rewrite Nat.add_0_r. split; [lia | exact H].
Qed.

Lemma plus_greedy_inv (cls : ascii -> bool) (k : cont) (s : string)
    (pos : nat) (caps m : captures) :
  plus_greedy cls k pos s caps = Some m ->
  exists n s',
    (0 < n <= String.length s)%nat /\ k (pos + n)%nat s' caps = Some m.
Proof.
  unfold plus_greedy. destruct s as [|c s]; [discriminate|].
  destruct (cls c); [|discriminate].
  intros H. apply star_greedy_inv in H.
  destruct H as (n & s' & Hn & Hk).
  exists (S n), s'. simpl. split; [lia|].
  rewrite Nat.add_succ_r. exact Hk.
Qed.

Lemma substring_nonempty (n : nat) (s : string) :
  (0 < n <= String.length s)%nat -> nonempty (substring 0 n s) = true.
Proof.
  destruct n as [|n]; [lia|].
  destruct s as [|c s]; simpl; [lia | reflexivity].
Qed.

(** A match of the Go pattern has its first two groups, both non-empty; the
    third is absent or non-empty. *)
Lemma go_line_re_groups (line : string) (m : captures) :
  re_match go_line_re line = Some m ->
  exists g1 g2,
    group m 1 = Some g1 /\ nonempty g1 = true
    /\ group m 2 = Some g2 /\ nonempty g2 = true
    /\ (group m 3 = None
        \/ exists g3, group m 3 = Some g3 /\ nonempty g3 = true).
Proof.
  unfold re_match, go_line_re. cbn [rmatch Nat.eqb].
  intros H.
  apply plus_greedy_inv in H. destruct H as (n1 & s1 & Hn1 & H).
  apply plus_greedy_inv in H. destruct H as (n2 & s2 & Hn2 & H).
  apply plus_greedy_inv in H. destruct H as (n3 & s3 & Hn3 & H).
  rewrite Nat.add_0_l, Nat.sub_0_r in *.
  replace (n1 + n2 + n3 - (n1 + n2))%nat with n3 in H by lia.
  exists (substring 0 n1 line), (substring 0 n3 s2).
  match type of H with
  | match ?inner with _ => _ end = _ => destruct inner as [m'|] eqn:Hopt
  end.
  - injection H as <-.
    apply plus_greedy_inv in Hopt. destruct Hopt as (n4 & s4 & Hn4 & Hopt).
    destruct s4 as [|c4 s4]; [discriminate|].
    destruct (Ascii.eqb "[" c4); [|discriminate].
    apply plus_greedy_inv in Hopt. destruct Hopt as (n5 & s5 & Hn5 & Hopt).
    destruct s5 as [|c5 s5]; [discriminate|].
    destruct (Ascii.eqb "]" c5); [|discriminate].
    injection Hopt as <-. cbn [group Nat.eqb].
    repeat split; try (apply substring_nonempty; assumption).
    right. eexists. split; [reflexivity|].
    apply substring_nonempty. lia.
  - injection H as <-. cbn [group Nat.eqb].
    repeat split; try (apply substring_nonempty; assumption).
    left. reflexivity.
Qed.

(** ** Ecosystem probes *)

Lemma cargo_loop_spec (dependencies : list pyval) :
  forall outdated_count updates st,
    cargo_loop max_str_digits dependencies outdated_count updates = inr st ->
    exists new,
      st = ((outdated_count + Z.of_nat (List.length new))%Z,
            (updates ++ new)%list)
      /\ Forall2 (cargo_record max_str_digits)
           (filter cargo_differs dependencies) new.
Proof.
  induction dependencies as [|dep rest IH]; simpl; intros n ups st H.
  - injection H as <-. exists []. rewrite app_nil_r, Z.add_0_r.
    split; [reflexivity | constructor].
  - unfold cargo_differs.
    destruct (py_getitem dep "project") as [e|project] eqn:Hp;
      [discriminate|].
    destruct (py_getitem dep "latest") as [e|latest] eqn:Hl;
      [discriminate|].
    simpl in H. destruct (py_ne project latest) eqn:Hne.
    + destruct (py_getitem dep "name") as [e|nm] eqn:Hn; [discriminate|].
      destruct (py_get dep "kind" (PStr "unknown")) as [e|kd] eqn:Hk;
        [discriminate|].
      simpl in H. apply IH in H. destruct H as (new & -> & HF).
      eexists (_ :: new). split.
      * rewrite <- app_assoc. simpl. f_equal.
        rewrite Zpos_P_of_succ_nat. lia.
      * constructor; [|exact HF].
        unfold cargo_record; simpl.
        repeat split; try assumption.
        exists kd. split; [reflexivity | assumption].
    + apply IH in H. exact H.
Qed.

Lemma cargo_try_spec (stdout : string) (r : EcosystemResult) :
  cargo_try max_str_digits json_loads stdout = inr r ->
  (json_loads stdout = None
   /\ r = error_result "Failed to parse cargo outdated output")
  \/ (exists data total ups,
        json_loads stdout = Some data
        /\ r = {| error := None; module_path := None;
                  total_deps := Some total;
                  outdated_count := Some (Z.of_nat (List.length ups));
                  updates := Some ups;
                  security_advisories := Some [] |}
        /\ Forall2 (cargo_record max_str_digits)
             (filter cargo_differs (cargo_dependencies json_loads stdout))
             ups).
Proof.
  unfold cargo_try, cargo_dependencies.
  destruct (json_loads stdout) as [data|]; intros H.
  - right.
    destruct (py_get data "dependencies" (PList [])) as [e|deps];
      [discriminate|].
    simpl in H. destruct (py_len deps) as [e|total]; [discriminate|].
    simpl in H. destruct (py_iter deps) as [e|items]; [discriminate|].
    simpl in H.
    destruct (cargo_loop max_str_digits items 0 []) as [e|st] eqn:Hloop;
      [discriminate|].
    apply cargo_loop_spec in Hloop. destruct Hloop as (new & -> & HF).
    injection H as <-. exists data, total, new.
    split; [reflexivity | split; [reflexivity | exact HF]].
  - left. injection H as <-. split; reflexivity.
Qed.

(** The Cargo probe answers with error data, or with what its [try]
    gives. *)
Lemma analyze_cargo_deps_cases (w : World) (root : Path) :
  (exists out msg,
     analyze_cargo_deps max_str_digits json_loads w root
     = (out, inr (error_result msg))
     /\ (msg = "cargo-outdated not installed"
         \/ exists stderr, msg = "Failed to run cargo outdated: " ++ stderr))
  \/ (exists stdout stderr,
        run_command w root cargo_outdated_cmd None = (0%Z, stdout, stderr)
        /\ analyze_cargo_deps max_str_digits json_loads w root
           = ([Line "Analyzing Rust dependencies..."],
              cargo_try max_str_digits json_loads stdout)).
Proof.
  unfold analyze_cargo_deps, cargo_outdated_cmd.
  destruct (run_command w root ["cargo"; "outdated"; "--version"] None)
    as [[rc1 out1] err1].
  destruct (run_command w root
              ["cargo"; "outdated"; "--workspace"; "--format"; "json"] None)
    as [[rc2 stdout] stderr].
  destruct (Z.eqb rc1 0) eqn:H1; simpl.
  - destruct (Z.eqb rc2 0) eqn:H2; simpl.
    + right. apply Z.eqb_eq in H2. subst rc2.
      exists stdout, stderr. split; [reflexivity|].
      destruct (cargo_try max_str_digits json_loads stdout); reflexivity.
    + left. do 2 eexists. split; [reflexivity|].
      right. eexists. reflexivity.
  - left. do 2 eexists. split; [reflexivity|]. left. reflexivity.
Qed.

Lemma go_line_spec (total_deps outdated_count : Z)
    (updates : list UpdateRecord) (line : string) :
  nonempty line = true ->
  exists new,
    go_line max_str_digits (total_deps, outdated_count, updates) line
    = ((total_deps + 1)%Z,
       (outdated_count + Z.of_nat (List.length new))%Z,
       (updates ++ new)%list)
    /\ Forall2 (go_record max_str_digits)
         (if go_differs line then [line] else []) new.
Proof.
  intros Hne. unfold go_line, go_differs. rewrite Hne. simpl.
  destruct (re_match go_line_re line) as [m|] eqn:Hm.
  - destruct (go_line_re_groups line m Hm)
      as (g1 & g2 & Hg1 & _ & Hg2 & _ & [Hg3 | (g3 & Hg3 & Hne3)]);
      rewrite Hg1, Hg2, Hg3; simpl.
    + exists []. rewrite app_nil_r, Z.add_0_r.
      split; [reflexivity | constructor].
    + rewrite Hne3. unfold py_ne. simpl.
      destruct (String.eqb g3 g2); simpl.
      * exists []. rewrite app_nil_r, Z.add_0_r.
        split; [reflexivity | constructor].
      * eexists [_]. split; [reflexivity|].
        constructor; [|constructor].
        exists m, g1, g2, g3. simpl. repeat split; assumption.
  - exists []. rewrite app_nil_r, Z.add_0_r.
    split; [reflexivity | constructor].
Qed.

Lemma go_fold_spec (lines : list string) :
  forall total_deps outdated_count updates,
  exists new,
    fold_left (go_line max_str_digits) lines
      (total_deps, outdated_count, updates)
    = ((total_deps + Z.of_nat (List.length (filter nonempty lines)))%Z,
       (outdated_count + Z.of_nat (List.length new))%Z,
       (updates ++ new)%list)
    /\ Forall2 (go_record max_str_digits)
         (filter go_differs (filter nonempty lines)) new.
Proof.
  induction lines as [|line lines IH]; intros td n ups.
  - exists []. simpl. rewrite app_nil_r, !Z.add_0_r.
    split; [reflexivity | constructor].
  - cbn [fold_left filter]. destruct (nonempty line) eqn:Hne.
    + destruct (go_line_spec td n ups line Hne) as (new1 & -> & HF1).
      destruct (IH (td + 1)%Z (n + Z.of_nat (List.length new1))%Z
                   (ups ++ new1)%list) as (new2 & -> & HF2).
      exists (new1 ++ new2)%list. split.
      * rewrite length_app, Nat2Z.inj_add. cbn [List.length].
        rewrite Nat2Z.inj_succ.
        apply f_equal2; [apply f_equal2; lia | symmetry; apply app_assoc].
      * cbn [filter].
        destruct (go_differs line).
        -- inversion HF1 as [|? u ? t Hu Ht]; subst.
           inversion Ht; subst. simpl. constructor; assumption.
        -- inversion HF1; subst. exact HF2.
    + assert (Hskip : go_line max_str_digits (td, n, ups) line
                      = (td, n, ups)).
      { unfold go_line. rewrite Hne. reflexivity. }
      rewrite Hskip. apply IH.
Qed.

(** In a world the Go probe answers with error data, or with the counts
    and records of the lines of the tool's output. *)
Lemma analyze_go_deps_cases (w : World) (root module_path : Path) :
  exists out r,
    analyze_go_deps max_str_digits w root module_path = (out, inr r)
    /\ ((exists msg, r = error_result msg
           /\ (msg = "go.mod not found"
               \/ exists stderr, msg = "Failed to run go list: " ++ stderr))
        \/ (exists stdout stderr ups,
              path_exists w (joinpath module_path "go.mod") = true
              /\ run_command w root go_list_cmd (Some module_path)
                 = (0%Z, stdout, stderr)
              /\ r = {| error := None;
                        module_path := Some (path_str module_path);
                        total_deps :=
                          Some (Z.of_nat (List.length (go_lines stdout)));
                        outdated_count :=
                          Some (Z.of_nat (List.length ups));
                        updates := Some ups;
                        security_advisories := None |}
              /\ Forall2 (go_record max_str_digits)
                   (filter go_differs (go_lines stdout)) ups)).
Proof.
  unfold analyze_go_deps, go_list_cmd, go_lines.
  destruct (path_exists w (joinpath module_path "go.mod")); simpl.
  - destruct (run_command w root ["go"; "list"; "-u"; "-m"; "all"]
                (Some module_path)) as [[rc stdout] stderr].
    destruct (Z.eqb rc 0) eqn:Hrc; simpl.
    + apply Z.eqb_eq in Hrc. subst rc.
      destruct (go_fold_spec (split newline (strip stdout)) 0%Z 0%Z [])
        as (new & -> & HF).
      do 2 eexists. split; [reflexivity|].
      right. exists stdout, stderr, new.
      split; [reflexivity|]. split; [reflexivity|].
      split; [reflexivity | exact HF].
    + do 2 eexists. split; [reflexivity|].
      left. eexists. split; [reflexivity|]. right. eexists. reflexivity.
  - do 2 eexists. split; [reflexivity|].
    left. eexists. split; [reflexivity|]. left. reflexivity.
Qed.

(** C4.  A result of either probe that carries no error has an
    [outdated_count] equal to the length of its [updates], and its
    [updates] are, in order, the records of exactly those dependencies the
    tool listed with a current and a latest version that differ. *)
Theorem outdated_count_is_length (w : World) (root : Path) :
  (forall out r,
     analyze_cargo_deps max_str_digits json_loads w root = (out, inr r) ->
     error r = None ->
     exists stdout stderr ups,
       run_command w root cargo_outdated_cmd None = (0%Z, stdout, stderr)
       /\ updates r = Some ups
       /\ outdated_count r = Some (Z.of_nat (List.length ups))
       /\ Forall2 (cargo_record max_str_digits)
            (filter cargo_differs (cargo_dependencies json_loads stdout))
            ups)
  /\ (forall module_path out r,
        analyze_go_deps max_str_digits w root module_path = (out, inr r) ->
        error r = None ->
        exists stdout stderr ups,
          run_command w root go_list_cmd (Some module_path)
          = (0%Z, stdout, stderr)
          /\ updates r = Some ups
          /\ outdated_count r = Some (Z.of_nat (List.length ups))
          /\ Forall2 (go_record max_str_digits)
               (filter go_differs (go_lines stdout)) ups).
Proof.
  split.
  - intros out r Hrun Herr.
    destruct (analyze_cargo_deps_cases w root)
      as [(out' & msg & Heq & _) | (stdout & stderr & Hcmd & Heq)];
      rewrite Heq in Hrun.
    + injection Hrun as _ <-. discriminate.
    + injection Hrun as _ Htry. apply cargo_try_spec in Htry.
      destruct Htry as [(_ & ->) | (data & total & ups & _ & -> & HF)];
        [discriminate|].
      exists stdout, stderr, ups. repeat split; assumption.
  - intros module_path out r Hrun Herr.
    destruct (analyze_go_deps_cases w root module_path)
      as (out' & r' & Heq & Hcases).
    rewrite Heq in Hrun. injection Hrun as _ <-.
    destruct Hcases
      as [(msg & -> & _) | (stdout & stderr & ups & _ & Hcmd & -> & HF)];
      [discriminate|].
    exists stdout, stderr, ups. repeat split; assumption.
Qed.

(** C6, as the code has it.  In a successful run of the Go probe
    [total_deps] is the number of non-empty lines of the stripped output,
    matching the pattern or not; the update records come, in order, from
    lines that match the pattern and carry a differing latest version, so
    a line that does not match adds no record. *)
Theorem go_total_deps_counts_every_line (w : World)
    (root module_path : Path) (out : list out_item) (r : EcosystemResult) :
  analyze_go_deps max_str_digits w root module_path = (out, inr r) ->
  error r = None ->
  exists stdout stderr ups,
    run_command w root go_list_cmd (Some module_path)
    = (0%Z, stdout, stderr)
    /\ total_deps r = Some (Z.of_nat (List.length (go_lines stdout)))
    /\ updates r = Some ups
    /\ Forall2 (go_record max_str_digits)
         (filter go_differs (go_lines stdout)) ups
    /\ (forall line, go_matches line = false -> go_differs line = false).
Proof.
  intros Hrun Herr.
  destruct (analyze_go_deps_cases w root module_path)
    as (out' & r' & Heq & Hcases).
  rewrite Heq in Hrun. injection Hrun as _ <-.
  destruct Hcases
    as [(msg & -> & _) | (stdout & stderr & ups & _ & Hcmd & -> & HF)];
    [discriminate|].
  exists stdout, stderr, ups.
  split; [exact Hcmd|]. split; [reflexivity|]. split; [reflexivity|].
  split; [exact HF|].
  intros line. unfold go_matches, go_differs.
  destruct (re_match go_line_re line); [discriminate | reflexivity].
Qed.

(** On a list of objects the loop of the Cargo probe ends in a [KeyError]
    exactly when some entry makes it look up a key the entry lacks. *)
Lemma cargo_loop_key_errors (dependencies : list pyval) :
  Forall (fun dep => is_dict dep = true) dependencies ->
  forall outdated_count updates,
    if existsb cargo_entry_lacks dependencies then
      exists key,
        cargo_loop max_str_digits dependencies outdated_count updates
        = inl (KeyError key)
        /\ (key = "project" \/ key = "latest" \/ key = "name")
    else
      exists st,
        cargo_loop max_str_digits dependencies outdated_count updates
        = inr st.
Proof.
  induction 1 as [|dep rest Hdep _ IH]; intros n ups.
  - simpl. eexists. reflexivity.
  - destruct dep as [| | | | |d]; try discriminate.
    cbn [existsb cargo_loop].
    unfold cargo_entry_lacks, cargo_differs, has_key, py_getitem, py_get.
    destruct (lookup "project" d) as [project|]; simpl;
      [|exists "project"; split; [reflexivity | auto]].
    destruct (lookup "latest" d) as [latest|]; simpl;
      [|exists "latest"; split; [reflexivity | auto]].
    destruct (py_ne project latest); simpl; [|apply IH].
    destruct (lookup "name" d) as [nm|]; simpl;
      [apply IH | exists "name"; split; [reflexivity | auto]].
Qed.

Lemma cargo_record_kind_default (dep : pyval) (update : UpdateRecord) :
  cargo_record max_str_digits dep update ->
  is_dict dep = true ->
  has_key "kind" dep = false ->
  kind update = Some (PStr "unknown").
Proof.
  intros (_ & _ & _ & _ & k & -> & Hkind) Hdict Hno.
  destruct dep as [| | | | |d]; try discriminate.
  unfold py_get, has_key in *.
  destruct (lookup "kind" d); [discriminate|].
  injection Hkind as <-. reflexivity.
Qed.

(** C10, as the code has it.  The [try] of the Cargo probe catches only a
    decoding failure.  When both commands succeed and the output decodes to
    an object whose "dependencies" is a list of objects: if some entry
    lacks "project" or "latest", or lacks "name" while its two versions
    differ, the probe raises [KeyError] and returns no result; otherwise it
    returns a result without error, whose records are those of the entries
    with differing versions, with kind "unknown" for an entry that has no
    "kind". *)
Theorem cargo_probe_key_errors (w : World) (root : Path)
    (out1 err1 stdout stderr : string)
    (d : list (string * pyval)) (deps : list pyval) :
  run_command w root ["cargo"; "outdated"; "--version"] None
  = (0%Z, out1, err1) ->
  run_command w root cargo_outdated_cmd None = (0%Z, stdout, stderr) ->
  json_loads stdout = Some (PDict d) ->
  lookup "dependencies" d = Some (PList deps) ->
  Forall (fun dep => is_dict dep = true) deps ->
  if existsb cargo_entry_lacks deps then
    exists key,
      snd (analyze_cargo_deps max_str_digits json_loads w root)
      = inl (KeyError key)
      /\ (key = "project" \/ key = "latest" \/ key = "name")
  else
    exists r ups,
      snd (analyze_cargo_deps max_str_digits json_loads w root) = inr r
      /\ error r = None
      /\ updates r = Some ups
      /\ Forall2
           (fun dep update =>
              cargo_record max_str_digits dep update
              /\ (has_key "kind" dep = false ->
                  kind update = Some (PStr "unknown")))
           (filter cargo_differs deps) ups.
Proof.
  intros Hversion Hcmd Hloads Hdeps Hdicts.
  destruct (analyze_cargo_deps_cases w root)
    as [(out' & msg & Heq & _) | (stdout' & stderr' & Hcmd' & Heq)].
  - exfalso. revert Heq. unfold analyze_cargo_deps.
    fold cargo_outdated_cmd. rewrite Hversion, Hcmd. simpl.
    unfold cargo_try. rewrite Hloads. unfold py_get. rewrite Hdeps. simpl.
    pose proof (cargo_loop_key_errors deps Hdicts 0%Z []) as Hloop.
    destruct (existsb cargo_entry_lacks deps).
    + destruct Hloop as (key & -> & _). discriminate.
    + destruct Hloop as (st & ->). discriminate.
  - rewrite Hcmd in Hcmd'. injection Hcmd' as <- <-.
    rewrite Heq. cbn [snd].
    pose proof (cargo_try_spec stdout) as Hspec.
    unfold cargo_try in *. rewrite Hloads in *.
    unfold py_get in *. rewrite Hdeps in *. simpl in *.
    pose proof (cargo_loop_key_errors deps Hdicts 0%Z []) as Hloop.
    destruct (existsb cargo_entry_lacks deps).
    + destruct Hloop as (key & -> & Hkey). exists key. split; [reflexivity|].
      exact Hkey.
    + destruct Hloop as (st & Hst). rewrite Hst in *. simpl in *.
      destruct (Hspec _ eq_refl)
        as [(Habs & _) | (data & total & ups & _ & Hr & HF)];
        [discriminate|].
      eexists. exists ups. split; [reflexivity|].
      rewrite Hr. cbn [error updates].
      split; [reflexivity|]. split; [reflexivity|].
      assert (Hcd : cargo_dependencies json_loads stdout = deps).
      { unfold cargo_dependencies. rewrite Hloads. unfold py_get.
        rewrite Hdeps. reflexivity. }
      rewrite Hcd in HF.
      assert (Hall : Forall (fun dep => is_dict dep = true)
                       (filter cargo_differs deps)).
      { apply Forall_forall. intros dep Hin.
        apply filter_In in Hin. destruct Hin as [Hin _].
        eapply Forall_forall in Hdicts; eassumption. }
      clear - HF Hall.
      induction HF as [|dep u l l' Hrec _ IH]; constructor.
      * inversion Hall; subst. split; [exact Hrec|].
        apply cargo_record_kind_default; assumption.
      * inversion Hall; subst. apply IH. assumption.
Qed.

(** ** Report builder *)

Lemma is_major_iff (update : UpdateRecord) :
  is_major update = true <-> change_type update = "major".
Proof. unfold is_major. apply String.eqb_eq. Qed.

Lemma has_major_updates_iff (report : Report) :
  has_major_updates report = true
  <-> exists update,
        In update (report_updates report) /\ change_type update = "major".
Proof.
  unfold has_major_updates, report_updates. split.
  - destruct (existsb is_major (default [] (updates (rust report))))
      eqn:Hrust.
    + intros _. apply existsb_exists in Hrust.
      destruct Hrust as (u & Hin & Hu). exists u.
      split; [apply in_or_app; left; exact Hin | apply is_major_iff, Hu].
    + intros Hgo. apply existsb_exists in Hgo.
      destruct Hgo as (module & Hmod & Hex).
      apply existsb_exists in Hex. destruct Hex as (u & Hin & Hu).
      exists u. split; [|apply is_major_iff, Hu].
      apply in_or_app. right. apply in_flat_map. exists module.
      split; assumption.
  - intros (u & Hin & Hu). apply is_major_iff in Hu.
    apply in_app_or in Hin. destruct Hin as [Hin | Hin].
    + assert (H : existsb is_major (default [] (updates (rust report)))
                  = true).
      { apply existsb_exists. exists u. split; assumption. }
      rewrite H. reflexivity.
    + destruct (existsb is_major (default [] (updates (rust report))));
        [reflexivity|].
      apply in_flat_map in Hin. destruct Hin as (module & Hmod & Hin).
      apply existsb_exists. exists module. split; [exact Hmod|].
      apply existsb_exists. exists u. split; assumption.
Qed.

Lemma Forall_dict_set {A} (P : string * A -> Prop) (key : string) (v : A)
    (d : list (string * A)) :
  (forall k, P (k, v)) -> Forall P d -> Forall P (dict_set key v d).
Proof.
  intros Hv. induction 1 as [|[k x] d Hx Hd IH]; simpl.
  - constructor; [apply Hv | constructor].
  - destruct (String.eqb key k); constructor;
      solve [apply Hv | assumption].
Qed.

Lemma go_modules_loop (w : World) (root : Path) (dirs : list Path) :
  forall report,
    Forall (from_go_probe max_str_digits w root) (go_modules report) ->
    exists out report',
      for_each dirs (go_module_step max_str_digits w root) report
      = (out, inr report')
      /\ timestamp report' = timestamp report
      /\ project_root report' = project_root report
      /\ rust report' = rust report
      /\ summary report' = summary report
      /\ Forall (from_go_probe max_str_digits w root) (go_modules report').
Proof.
  induction dirs as [|dir dirs IH]; intros report Hgo.
  - exists [], report. simpl. repeat split; (reflexivity || assumption).
  - cbn [for_each]. unfold go_module_step at 1.
    destruct (path_exists w dir).
    + destruct (analyze_go_deps_cases w root dir)
        as (out1 & r & Hprobe & _).
      rewrite Hprobe. cbn [bind ret app].
      match goal with
      | |- context [for_each dirs _ ?rep] =>
          destruct (IH rep) as (out2 & report' & Heq & Ht & Hp & Hr & Hs & HF)
      end.
      { cbn [go_modules]. apply Forall_dict_set; [|exact Hgo].
        intros k. exists dir, out1. exact Hprobe. }
      rewrite app_nil_r, Heq. do 2 eexists.
      split; [reflexivity|]. repeat split; assumption.
    + cbn [bind ret app].
      destruct (IH report Hgo)
        as (out2 & report' & Heq & Ht & Hp & Hr & Hs & HF).
      rewrite Heq. do 2 eexists.
      split; [reflexivity|]. repeat split; assumption.
Qed.

(** How [generate_report] ends in a world: the date utility fails, or the
    Cargo probe raises, or a report comes back with its summary. *)
Lemma generate_report_inv (w : World) (root : Path)
    (out : list out_item) (res : result Report) :
  generate_report max_str_digits json_loads w root = (out, res) ->
  (exists err,
     check_output w date_cmd = inl err /\ res = inl (external_error err))
  \/ (exists o e,
        path_exists w (joinpath root "Cargo.toml") = true
        /\ analyze_cargo_deps max_str_digits json_loads w root = (o, inl e)
        /\ res = inl e)
  \/ (exists date report,
        check_output w date_cmd = inr date
        /\ res = inr report
        /\ summary report
           = Some {| total_rust_updates :=
                       default 0%Z (outdated_count (rust report));
                     total_go_updates :=
                       sum (map (fun module =>
                                   default 0%Z (outdated_count module))
                              (values (go_modules report)));
                     total_updates := outdated_total report;
                     has_major_updates_flag := has_major_updates report;
                     has_security_updates_flag := false |}
        /\ (rust report = empty_result
            \/ exists o,
                 analyze_cargo_deps max_str_digits json_loads w root
                 = (o, inr (rust report)))
        /\ Forall (from_go_probe max_str_digits w root) (go_modules report)).
Proof.
  unfold generate_report. fold date_cmd.
  destruct (check_output w date_cmd) as [err|date] eqn:Hdate.
  - intros H. injection H as _ <-. left. exists err. split; reflexivity.
  - cbn [external lift ok bind app].
    destruct (path_exists w (joinpath root "Cargo.toml")) eqn:Hmanifest.
    + destruct (analyze_cargo_deps max_str_digits json_loads w root)
        as [o [e|rust_result]] eqn:Hcargo.
      * intros H. injection H as _ <-. right. left.
        exists o, e. repeat split; reflexivity.
      * cbn [bind ret app].
        match goal with
        | |- context [for_each ?dirs _ ?rep] =>
            destruct (go_modules_loop w root dirs rep)
              as (out2 & report' & Heq & Ht & Hp & Hr & Hs & HF)
        end.
        { constructor. }
        rewrite Heq. cbn [bind ret app].
        intros H. injection H as _ <-. right. right.
        exists date. eexists. split; [reflexivity|].
        split; [reflexivity|]. cbn [summary rust go_modules].
        split; [reflexivity|]. split; [|exact HF].
        right. exists o. rewrite Hr. reflexivity.
    + cbn [bind ret app].
      match goal with
      | |- context [for_each ?dirs _ ?rep] =>
          destruct (go_modules_loop w root dirs rep)
            as (out2 & report' & Heq & Ht & Hp & Hr & Hs & HF)
      end.
      { constructor. }
      rewrite Heq. cbn [bind ret app].
      intros H. injection H as _ <-. right. right.
      exists date. eexists. split; [reflexivity|].
      split; [reflexivity|]. cbn [summary rust go_modules].
      split; [reflexivity|]. split; [|exact HF].
      left. rewrite Hr. reflexivity.
Qed.

(** ** Entry point *)

Lemma cargo_loop_raises (dependencies : list pyval) :
  forall outdated_count updates e,
    cargo_loop max_str_digits dependencies outdated_count updates = inl e ->
    shape_error e.
Proof.
  induction dependencies as [|dep rest IH]; simpl; intros n ups e H.
  - discriminate.
  - assert (Hget : forall key x,
              py_getitem dep key = inl x -> shape_error x).
    { intros key x. unfold py_getitem, raise, ok.
      destruct dep as [| | | | |d];
        try (intros Hx; injection Hx as <-; right; left; reflexivity).
      destruct (lookup key d); [discriminate|].
      intros Hx. injection Hx as <-. right. right. eexists. reflexivity. }
    destruct (py_getitem dep "project") as [x|project] eqn:Hp.
    { injection H as <-. eapply Hget, Hp. }
    destruct (py_getitem dep "latest") as [x|latest] eqn:Hl.
    { injection H as <-. eapply Hget, Hl. }
    simpl in H. destruct (py_ne project latest).
    + destruct (py_getitem dep "name") as [x|nm] eqn:Hn.
      { injection H as <-. eapply Hget, Hn. }
      destruct (py_get dep "kind" (PStr "unknown")) as [x|kd] eqn:Hk.
      { injection H as <-. unfold py_get, raise, ok in Hk.
        destruct dep; try discriminate;
          injection Hk as <-; left; reflexivity. }
      simpl in H. eapply IH, H.
    + eapply IH, H.
Qed.

Lemma cargo_try_raises (stdout : string) (e : exn) :
  cargo_try max_str_digits json_loads stdout = inl e ->
  exists data, json_loads stdout = Some data /\ shape_error e.
Proof.
  unfold cargo_try. destruct (json_loads stdout) as [data|]; [|discriminate].
  intros H. exists data. split; [reflexivity|].
  destruct (py_get data "dependencies" (PList [])) as [x|deps] eqn:Hget.
  { injection H as <-. unfold py_get, raise, ok in Hget.
    destruct data; try discriminate; injection Hget as <-; left; reflexivity. }
  simpl in H. destruct (py_len deps) as [x|total] eqn:Hlen.
  { injection H as <-. unfold py_len, raise, ok in Hlen.
    destruct deps; try discriminate;
      injection Hlen as <-; right; left; reflexivity. }
  simpl in H. destruct (py_iter deps) as [x|items] eqn:Hiter.
  { injection H as <-. unfold py_iter, raise, ok in Hiter.
    destruct deps; try discriminate;
      injection Hiter as <-; right; left; reflexivity. }
  simpl in H.
  destruct (cargo_loop max_str_digits items 0 []) as [x|st] eqn:Hloop;
    [|discriminate].
  injection H as <-. eapply cargo_loop_raises, Hloop.
Qed.

(** In a world the Cargo probe raises only after both commands succeeded
    and the output was decoded, and then an exception of the interpreter. *)
Lemma analyze_cargo_deps_raises (w : World) (root : Path)
    (out : list out_item) (e : exn) :
  analyze_cargo_deps max_str_digits json_loads w root = (out, inl e) ->
  exists stdout stderr data,
    run_command w root cargo_outdated_cmd None = (0%Z, stdout, stderr)
    /\ json_loads stdout = Some data
    /\ shape_error e.
Proof.
  intros H.
  destruct (analyze_cargo_deps_cases w root)
    as [(out' & msg & Heq & _) | (stdout & stderr & Hcmd & Heq)];
    rewrite Heq in H; [discriminate|].
  injection H as _ Htry. apply cargo_try_raises in Htry.
  destruct Htry as (data & Hloads & He).
  exists stdout, stderr, data. repeat split; assumption.
Qed.

Lemma shape_error_uncaught (e : exn) :
  shape_error e ->
  match e with
  | SystemExit status => Exit status
  | _ => Uncaught e
  end = Uncaught e.
Proof.
  intros [-> | [-> | (key & ->)]]; reflexivity.
Qed.
Lemma generate_report_uncaught (w : World) (root : Path)
    (out : list out_item) (e : exn) :
  generate_report max_str_digits json_loads w root = (out, inl e) ->
  match e with
  | SystemExit status => Exit status
  | _ => Uncaught e
  end = Uncaught e.
Proof.
  intros H. apply generate_report_inv in H.
  destruct H as [(err & _ & He) | [(o & e' & _ & Hc & He) | H]].
  - injection He as ->. reflexivity.
  - injection He as <-. apply analyze_cargo_deps_raises in Hc.
    destruct Hc as (_ & _ & _ & _ & _ & Hshape).
    apply shape_error_uncaught, Hshape.
  - destruct H as (_ & report & _ & Habs & _). discriminate.
Qed.

(** How [main] ends in a world. *)
Lemma run_main_inv (w : World) (args : Args)
    (out : list out_item) (t : termination) :
  run_main max_str_digits json_loads w args = (out, t) ->
  let root := resolve w (args_project_root args) in
  (path_exists w root = false
   /\ out = [Line ("Project root not found: " ++ path_str root)]
   /\ t = Exit 1)
  \/ (path_exists w root = true
      /\ exists e,
           generate_report max_str_digits json_loads w root = (out, inl e)
           /\ t = Uncaught e)
  \/ (path_exists w root = true
      /\ exists o report,
           generate_report max_str_digits json_loads w root
           = (o, inr report)
           /\ ((exists file err,
                  args_save args = Some file
                  /\ nonempty file = true
                  /\ write_json w file report = Some err
                  /\ t = Uncaught (external_error err))
               \/ (save_succeeds w args report
                   /\ t = Exit (if (outdated_total report >? 0)%Z
                                then 1 else 0)))).
Proof.
  intros H root. unfold run_main, main in H. fold root in H.
  destruct (path_exists w root) eqn:Hroot; cbn [negb] in H.
  - right.
    destruct (generate_report max_str_digits json_loads w root)
      as [o [e|report]] eqn:Hgen.
    + left. split; [reflexivity|]. exists e.
      cbn in H. rewrite (generate_report_uncaught w root o e Hgen) in H.
      injection H as <- <-. split; reflexivity.
    + right. split; [reflexivity|]. exists o, report.
      split; [reflexivity|].
      pose proof (generate_report_inv w root o _ Hgen) as Hinv.
      destruct Hinv as [(err & _ & Habs) | [(o' & e' & _ & _ & Habs) | Hinv]];
        try discriminate.
      destruct Hinv as (date & report' & _ & Heq & Hsum & _).
      injection Heq as <-.
      unfold save_succeeds.
      cbn [bind ret app] in H.
      rewrite Hsum in H. cbn [total_updates] in H.
      unfold print_report, print, sys_exit, throw, ret, bind in H.
      destruct (String.eqb (args_output args) "json");
        destruct (args_save args) as [file|];
        try destruct (nonempty file) eqn:Hfile;
        try destruct (write_json w file report) as [err|] eqn:Hwrite;
        destruct (outdated_total report >? 0)%Z;
        cbn in H; injection H as _ <-;
        solve [ left; exists file, err; repeat split; assumption
              | right; split; [auto | reflexivity] ].
  - left. cbn in H. injection H as <- <-. repeat split.
Qed.
(** C5.  In a generated report [summary.has_major_updates] is true exactly
    when some update record of some ecosystem result, the Rust one or a Go
    module's, has change type "major"; it is false on a report without
    update records. *)
Theorem has_major_updates_flag_iff (w : World) (root : Path)
    (out : list out_item) (report : Report) :
  generate_report max_str_digits json_loads w root = (out, inr report) ->
  exists s,
    summary report = Some s
    /\ (has_major_updates_flag s = true
        <-> exists update,
              In update (report_updates report)
              /\ change_type update = "major")
    /\ (report_updates report = [] -> has_major_updates_flag s = false).
Proof.
  intros Hgen. apply generate_report_inv in Hgen.
  destruct Hgen as [(err & _ & Habs) | [(o & e & _ & _ & Habs) | Hgen]];
    try discriminate.
  destruct Hgen as (date & report' & _ & Heq & Hsum & _).
  injection Heq as <-. eexists. split; [exact Hsum|].
  cbn [has_major_updates_flag].
  split; [apply has_major_updates_iff|].
  intros Hnone. destruct (has_major_updates report) eqn:Hmajor;
    [|reflexivity].
  apply has_major_updates_iff in Hmajor.
  destruct Hmajor as (u & Hin & _). rewrite Hnone in Hin. destruct Hin.
Qed.

(** A result of either probe is error data without counts, or has no
    error. *)
Lemma probe_result_shape (w : World) (root : Path) (r : EcosystemResult) :
  r = empty_result
  \/ (exists o,
        analyze_cargo_deps max_str_digits json_loads w root = (o, inr r))
  \/ (exists key, from_go_probe max_str_digits w root (key, r)) ->
  error r <> None -> outdated_count r = None.
Proof.
  intros [-> | [(o & Hcargo) | (key & module_path & o & Hgo)]] Herr.
  - reflexivity.
  - destruct (analyze_cargo_deps_cases w root)
      as [(out' & msg & Heq & _) | (stdout & stderr & _ & Heq)];
      rewrite Heq in Hcargo.
    + injection Hcargo as _ <-. reflexivity.
    + injection Hcargo as _ Htry. apply cargo_try_spec in Htry.
      destruct Htry as [(_ & ->) | (data & total & ups & _ & -> & _)];
        [reflexivity | exfalso; apply Herr; reflexivity].
  - cbn [snd] in Hgo.
    destruct (analyze_go_deps_cases w root module_path)
      as (out' & r' & Heq & Hcases).
    rewrite Heq in Hgo. injection Hgo as _ <-.
    destruct Hcases
      as [(msg & -> & _) | (stdout & stderr & ups & _ & _ & -> & _)];
      [reflexivity | exfalso; apply Herr; reflexivity].
Qed.

(** C7.  When the resolved project root does not exist, [main] prints the
    one message, runs no probe, prints no report and exits with 1.  When
    the root exists and the run ends with an exit status, the report was
    generated, its [summary.total_updates] is the sum of the
    [outdated_count] of its ecosystem results, a result that carries an
    error counting for 0, and the status is 1 if that total is positive
    and 0 otherwise.  And the run does end so whenever the report is
    generated and the [--save] step writes nothing or writes without
    error. *)
Theorem exit_status_of_main (w : World) (args : Args) :
  (path_exists w (resolve w (args_project_root args)) = false ->
   run_main max_str_digits json_loads w args
   = ([Line ("Project root not found: "
             ++ path_str (resolve w (args_project_root args)))],
      Exit 1))
  /\ (forall out status,
        path_exists w (resolve w (args_project_root args)) = true ->
        run_main max_str_digits json_loads w args = (out, Exit status) ->
        exists o report s,
          generate_report max_str_digits json_loads w
            (resolve w (args_project_root args)) = (o, inr report)
          /\ summary report = Some s
          /\ total_updates s = outdated_total report
          /\ Forall (fun r => error r <> None ->
                              default 0%Z (outdated_count r) = 0%Z)
               (report_results report)
          /\ status = if (total_updates s >? 0)%Z then 1%Z else 0%Z)
  /\ (forall o report,
        path_exists w (resolve w (args_project_root args)) = true ->
        generate_report max_str_digits json_loads w
          (resolve w (args_project_root args)) = (o, inr report) ->
        save_succeeds w args report ->
        snd (run_main max_str_digits json_loads w args)
        = Exit (if (outdated_total report >? 0)%Z then 1%Z else 0%Z)).
Proof.
  split; [|split].
  - intros Hroot.
    destruct (run_main max_str_digits json_loads w args) as [out t] eqn:Hrun.
    apply run_main_inv in Hrun. cbv zeta in Hrun.
    destruct Hrun as [(_ & -> & ->) | [(Habs & _) | (Habs & _)]];
      [reflexivity | congruence | congruence].
  - intros out status Hroot Hrun.
    apply run_main_inv in Hrun. cbv zeta in Hrun.
    destruct Hrun as [(Habs & _) | [(_ & e & _ & Habs) | Hrun]];
      [congruence | discriminate |].
    destruct Hrun as (_ & o & report & Hgen & Hend).
    destruct Hend as [(file & err & _ & _ & _ & Habs) | (_ & Hstatus)];
      [discriminate|].
    injection Hstatus as ->.
    pose proof (generate_report_inv w _ o _ Hgen) as Hinv.
    destruct Hinv as [(err & _ & Habs) | [(o' & e' & _ & _ & Habs) | Hinv]];
      try discriminate.
    destruct Hinv as (date & report' & _ & Heq & Hsum & Hrust & Hgo).
    injection Heq as <-.
    exists o, report. eexists. split; [exact Hgen|].
    split; [exact Hsum|]. cbn [total_updates].
    split; [reflexivity|]. split; [|reflexivity].
    unfold report_results. constructor.
    + intros Herr.
      rewrite (probe_result_shape w (resolve w (args_project_root args))
                 (rust report));
        [reflexivity | | exact Herr].
      destruct Hrust as [-> | Hrust]; [left; reflexivity | right; left].
      exact Hrust.
    + unfold values. apply Forall_forall. intros r Hin Herr.
      apply in_map_iff in Hin. destruct Hin as ([key r'] & <- & Hin).
      eapply Forall_forall in Hgo; [|exact Hin]. cbn [snd] in *.
      rewrite (probe_result_shape w (resolve w (args_project_root args)) r');
        [reflexivity | | exact Herr].
      right. right. exists key. exact Hgo.
  - intros o report Hroot Hgen Hsave.
    destruct (run_main max_str_digits json_loads w args) as [out t] eqn:Hrun.
    apply run_main_inv in Hrun. cbv zeta in Hrun.
    destruct Hrun as [(Habs & _) | [(_ & e' & Hgen' & _) | Hrun]];
      [congruence | congruence |].
    destruct Hrun as (_ & o' & report' & Hgen' & Hend).
    rewrite Hgen in Hgen'. injection Hgen' as <- <-.
    destruct Hend
      as [(file & err & Hfile & Hne & Hwrite & _) | (_ & ->)];
      [|reflexivity].
    unfold save_succeeds in Hsave. rewrite Hfile in Hsave.
    destruct Hsave; congruence.
Qed.


(** ** More on the version classifier *)

Lemma parse_version_not_str (v : pyval) :
  is_str v = false -> parse_version max_str_digits v = inl AttributeError.
Proof.
  destruct v; try discriminate; reflexivity.
Qed.

Lemma determine_semver_change_not_str (current latest : pyval) :
  is_str current && is_str latest = false ->
  determine_semver_change max_str_digits current latest = "unknown".
Proof.
  intros H. unfold determine_semver_change.
  destruct (is_str current) eqn:Hc.
  - destruct current; try discriminate.
    destruct (parse_version_triple s) as (a & b & c & -> & _).
    simpl in H. rewrite (parse_version_not_str latest H). reflexivity.
  - rewrite (parse_version_not_str current Hc). reflexivity.
Qed.

(** X1.  The classification does not look at the direction of the change:
    exchanging the two versions gives the same answer, whatever the values
    are. *)
Theorem determine_semver_change_symmetric (current latest : pyval) :
  determine_semver_change max_str_digits current latest
  = determine_semver_change max_str_digits latest current.
Proof.
  destruct (is_str current && is_str latest) eqn:Hstr.
  - apply andb_prop in Hstr. destruct Hstr as [Hc Hl].
    destruct current as [| | |s| |]; try discriminate.
    destruct latest as [| | |t| |]; try discriminate.
    destruct (parse_version_triple s) as (a & b & c & Hs & _).
    destruct (parse_version_triple t) as (a' & b' & c' & Ht & _).
    rewrite (determine_semver_change_parsed _ _ _ _ _ _ _ _ Hs Ht).
    rewrite (determine_semver_change_parsed _ _ _ _ _ _ _ _ Ht Hs).
    rewrite (Z.eqb_sym a' a), (Z.eqb_sym b' b), (Z.eqb_sym c' c).
    reflexivity.
  - rewrite (determine_semver_change_not_str _ _ Hstr).
    rewrite andb_comm in Hstr.
    rewrite (determine_semver_change_not_str _ _ Hstr). reflexivity.
Qed.

(** X2.  The answer is always one of the five change types, and it is
    "unknown" exactly when one of the two values is not a string. *)
Theorem determine_semver_change_unknown (current latest : pyval) :
  In (determine_semver_change max_str_digits current latest)
     ["major"; "minor"; "patch"; "other"; "unknown"]
  /\ (determine_semver_change max_str_digits current latest = "unknown"
      <-> is_str current && is_str latest = false).
Proof.
  destruct (is_str current && is_str latest) eqn:Hstr.
  - apply andb_prop in Hstr. destruct Hstr as [Hc Hl].
    destruct current as [| | |s| |]; try discriminate.
    destruct latest as [| | |t| |]; try discriminate.
    destruct (parse_version_triple s) as (a & b & c & Hs & _).
    destruct (parse_version_triple t) as (a' & b' & c' & Ht & _).
    rewrite (determine_semver_change_parsed _ _ _ _ _ _ _ _ Hs Ht).
    destruct (a =? a')%Z, (b =? b')%Z, (c =? c')%Z; simpl;
      (split; [auto 8 | split; discriminate]).
  - rewrite (determine_semver_change_not_str _ _ Hstr).
    split; [simpl; auto 8 | split; reflexivity].
Qed.

(** X3.  Two version strings are classified "other" exactly when they
    parse to the same triple, equal as strings or not. *)
Theorem determine_semver_change_other (current latest : string) :
  determine_semver_change max_str_digits (PStr current) (PStr latest)
  = "other"
  <-> parse_version max_str_digits (PStr current)
      = parse_version max_str_digits (PStr latest).
Proof.
  destruct (parse_version_triple current) as (a & b & c & Hs & _).
  destruct (parse_version_triple latest) as (a' & b' & c' & Ht & _).
  rewrite (determine_semver_change_parsed _ _ _ _ _ _ _ _ Hs Ht), Hs, Ht.
  destruct (Z.eqb_spec a a') as [->|Ha]; simpl.
  - destruct (Z.eqb_spec b b') as [->|Hb]; simpl.
    + destruct (Z.eqb_spec c c') as [->|Hc]; simpl.
      * split; reflexivity.
      * split; [discriminate | intros H; injection H; contradiction].
    + split; [discriminate | intros H; injection H; contradiction].
  - split; [discriminate | intros H; injection H; contradiction].
Qed.

Lemma take_while_idempotent (cls : ascii -> bool) (s : string) :
  take_while cls (take_while cls s) = take_while cls s.
Proof.
  induction s as [|c s IH]; simpl; [reflexivity|].
  destruct (cls c) eqn:Hc; simpl; [rewrite Hc, IH|]; reflexivity.
Qed.

(** X4.  Only the leading run of digits of a segment counts: whatever
    follows it (a pre-release or build suffix) changes nothing. *)
Theorem parse_part_ignores_suffix (part : string) :
  parse_part max_str_digits part
  = parse_part max_str_digits (take_while isdigit part).
Proof.
  rewrite !parse_part_spec. cbv zeta.
  rewrite take_while_idempotent. reflexivity.
Qed.

(** X5.  A segment whose leading run of digits is longer than the limit of
    the interpreter on integer strings makes [int] raise; the segment then
    counts for 0 and nothing is raised. *)
Theorem parse_part_beyond_limit (part : string) :
  (str_digits_check_threshold
   < String.length (take_while isdigit part))%nat ->
  (0 < max_str_digits
   < String.length (take_while isdigit part))%nat ->
  py_int max_str_digits (take_while isdigit part) = inl ValueError
  /\ parse_part max_str_digits part = 0%Z.
Proof.
  intros Hthreshold [Hpos Hlimit].
  apply Nat.ltb_lt in Hthreshold, Hpos, Hlimit.
  split.
  - unfold py_int. rewrite Hthreshold, Hpos, Hlimit. reflexivity.
  - rewrite parse_part_spec. cbv zeta.
    rewrite Hthreshold, Hpos, Hlimit.
    destruct (nonempty (take_while isdigit part)); reflexivity.
Qed.

Lemma no_dot_cons (c : ascii) (s : string) :
  no_dot (String c s) = true ->
  Ascii.eqb c "." = false /\ no_dot s = true.
Proof.
  unfold no_dot. cbn [mem_char]. rewrite (Ascii.eqb_sym "." c).
  destruct (Ascii.eqb c "."); cbn [orb negb]; intros H;
    [discriminate | split; [reflexivity | exact H]].
Qed.

Lemma split_dotted (s t : string) :
  no_dot s = true -> split "." (dotted s t) = s :: split "." t.
Proof.
  unfold dotted. induction s as [|c s IH]; intros H.
  - reflexivity.
  - apply no_dot_cons in H. destruct H as [Hc Hs].
    cbn [append split]. rewrite Hc, (IH Hs). reflexivity.
Qed.

Lemma split_no_dot (s : string) :
  no_dot s = true -> split "." s = [s].
Proof.
  induction s as [|c s IH]; intros H.
  - reflexivity.
  - apply no_dot_cons in H. destruct H as [Hc Hs].
    cbn [split]. rewrite Hc, (IH Hs). reflexivity.
Qed.

Lemma lstrip_dotted (s t : string) :
  lstrip "v" (dotted s t) = dotted (lstrip "v" s) t.
Proof.
  unfold dotted. induction s as [|c s IH]; [reflexivity|].
  cbn [append lstrip mem_char orb].
  destruct (Ascii.eqb c "v"); cbn [orb]; [exact IH | reflexivity].
Qed.

Lemma lstrip_no_dot (s : string) :
  no_dot s = true -> no_dot (lstrip "v" s) = true.
Proof.
  induction s as [|c s IH]; intros H; [reflexivity|].
  cbn [lstrip mem_char].
  destruct (Ascii.eqb c "v"); cbn [orb]; [|exact H].
  apply IH. apply no_dot_cons in H. apply H.
Qed.

(** X6.  Only the first three segments count: the triple of
    "a.b.c.rest" is the one of "a.b.c", whatever [rest] is, and its
    components are the values of [a] without its leading "v"s, of [b] and
    of [c]. *)
Theorem parse_version_first_three_segments (a b c rest : string) :
  no_dot a = true -> no_dot b = true -> no_dot c = true ->
  parse_version max_str_digits (PStr (dotted a (dotted b (dotted c rest))))
  = parse_version max_str_digits (PStr (dotted a (dotted b c)))
  /\ parse_version max_str_digits (PStr (dotted a (dotted b c)))
     = inr [parse_part max_str_digits (lstrip "v" a);
            parse_part max_str_digits b;
            parse_part max_str_digits c].
Proof.
  intros Ha Hb Hc. apply lstrip_no_dot in Ha.
  rewrite !parse_version_str, !lstrip_dotted.
  rewrite !(split_dotted _ _ Ha), !(split_dotted _ _ Hb).
  rewrite (split_dotted _ _ Hc), (split_no_dot _ Hc).
  split; reflexivity.
Qed.

(** ** More on the probes *)

Lemma py_len_iter (v : pyval) (n : Z) (items : list pyval) :
  py_len v = inr n -> py_iter v = inr items ->
  n = Z.of_nat (List.length items).
Proof.
  destruct v as [| | |s|l|d]; simpl; try discriminate;
    intros Hn Hitems; injection Hn as <-; injection Hitems as <-.
  - f_equal. induction s as [|c s IH]; simpl; [reflexivity | f_equal; exact IH].
  - reflexivity.
  - rewrite length_map. reflexivity.
Qed.

(** In a successful run of the Cargo probe [total_deps] counts the entries
    the loop visits. *)
Lemma cargo_try_total (stdout : string) (r : EcosystemResult) :
  cargo_try max_str_digits json_loads stdout = inr r ->
  error r = None ->
  total_deps r
  = Some (Z.of_nat (List.length (cargo_dependencies json_loads stdout))).
Proof.
  unfold cargo_try, cargo_dependencies.
  destruct (json_loads stdout) as [data|]; intros H Herr.
  - destruct (py_get data "dependencies" (PList [])) as [e|deps];
      [discriminate|].
    simpl in H. destruct (py_len deps) as [e|total] eqn:Hlen; [discriminate|].
    simpl in H. destruct (py_iter deps) as [e|items] eqn:Hiter;
      [discriminate|].
    simpl in H.
    destruct (cargo_loop max_str_digits items 0 []) as [e|st];
      [discriminate|].
    injection H as <-. cbn [total_deps]. f_equal.
    eapply py_len_iter; eassumption.
  - injection H as <-. discriminate.
Qed.

Lemma Forall2_filter_length {A B} (R : A -> B -> Prop) (f : A -> bool)
    (l : list A) (l' : list B) :
  Forall2 R (filter f l) l' -> (List.length l' <= List.length l)%nat.
Proof.
  intros H. apply Forall2_length in H. rewrite <- H.
  apply filter_length_le.
Qed.

(** X7.  In a result of either probe that carries no error, [total_deps]
    and [outdated_count] are integers with
    0 <= outdated_count <= total_deps. *)
Theorem outdated_count_bounds (w : World) (root : Path) :
  (forall out r,
     analyze_cargo_deps max_str_digits json_loads w root = (out, inr r) ->
     error r = None ->
     exists total outdated,
       total_deps r = Some total /\ outdated_count r = Some outdated
       /\ (0 <= outdated <= total)%Z)
  /\ (forall module_path out r,
        analyze_go_deps max_str_digits w root module_path = (out, inr r) ->
        error r = None ->
        exists total outdated,
          total_deps r = Some total /\ outdated_count r = Some outdated
          /\ (0 <= outdated <= total)%Z).
Proof.
  split.
  - intros out r Hrun Herr.
    destruct (analyze_cargo_deps_cases w root)
      as [(out' & msg & Heq & _) | (stdout & stderr & Hcmd & Heq)];
      rewrite Heq in Hrun.
    + injection Hrun as _ <-. discriminate.
    + injection Hrun as _ Htry.
      pose proof (cargo_try_total stdout r Htry Herr) as Htotal.
      apply cargo_try_spec in Htry.
      destruct Htry as [(_ & ->) | (data & total & ups & _ & -> & HF)];
        [discriminate|].
      cbn [total_deps] in Htotal. injection Htotal as ->.
      do 2 eexists. split; [reflexivity|]. split; [reflexivity|].
      apply Forall2_filter_length in HF. lia.
  - intros module_path out r Hrun Herr.
    destruct (analyze_go_deps_cases w root module_path)
      as (out' & r' & Heq & Hcases).
    rewrite Heq in Hrun. injection Hrun as _ <-.
    destruct Hcases
      as [(msg & -> & _) | (stdout & stderr & ups & _ & Hcmd & -> & HF)];
      [discriminate|].
    do 2 eexists. split; [reflexivity|]. split; [reflexivity|].
    apply Forall2_filter_length in HF. lia.
Qed.

(** X8.  When both [cargo outdated] commands succeed and the output decodes
    to an object without a "dependencies" key, the Cargo probe reports
    success with no dependency at all. *)
Theorem cargo_probe_without_dependencies (w : World) (root : Path)
    (out1 err1 stdout stderr : string) (d : list (string * pyval)) :
  run_command w root ["cargo"; "outdated"; "--version"] None
  = (0%Z, out1, err1) ->
  run_command w root cargo_outdated_cmd None = (0%Z, stdout, stderr) ->
  json_loads stdout = Some (PDict d) ->
  lookup "dependencies" d = None ->
  snd (analyze_cargo_deps max_str_digits json_loads w root)
  = inr (nothing_outdated None (Some [])).
Proof.
  unfold analyze_cargo_deps, cargo_outdated_cmd.
  intros -> -> Hloads Hkey. cbn [Z.eqb negb].
  unfold cargo_try. rewrite Hloads. cbn [py_get ok]. rewrite Hkey.
  reflexivity.
Qed.

(** X9.  When both [cargo outdated] commands succeed and the output decodes
    to a value that is not an object, the Cargo probe raises
    [AttributeError]: the handler of its [try] takes decoding errors
    only. *)
Theorem cargo_probe_not_an_object (w : World) (root : Path)
    (out1 err1 stdout stderr : string) (data : pyval) :
  run_command w root ["cargo"; "outdated"; "--version"] None
  = (0%Z, out1, err1) ->
  run_command w root cargo_outdated_cmd None = (0%Z, stdout, stderr) ->
  json_loads stdout = Some data ->
  is_dict data = false ->
  snd (analyze_cargo_deps max_str_digits json_loads w root)
  = inl AttributeError.
Proof.
  unfold analyze_cargo_deps, cargo_outdated_cmd.
  intros -> -> Hloads Hdict. cbn [Z.eqb negb].
  unfold cargo_try. rewrite Hloads.
  destruct data; try discriminate; reflexivity.
Qed.

Lemma lstrip_space_all (s : string) :
  all_chars isspace s = true -> lstrip_space s = EmptyString.
Proof.
  induction s as [|c s IH]; simpl; [reflexivity|].
  destruct (isspace c); [exact IH | discriminate].
Qed.

(** X10.  When [go list] succeeds and prints nothing but white space, the
    Go probe reports success with no dependency at all. *)
Theorem go_probe_blank_output (w : World) (root module_path : Path)
    (stdout stderr : string) :
  path_exists w (joinpath module_path "go.mod") = true ->
  run_command w root go_list_cmd (Some module_path)
  = (0%Z, stdout, stderr) ->
  all_chars isspace stdout = true ->
  snd (analyze_go_deps max_str_digits w root module_path)
  = inr (nothing_outdated (Some (path_str module_path)) None).
Proof.
  unfold analyze_go_deps, go_list_cmd.
  intros -> -> Hblank. cbn [Z.eqb negb].
  unfold strip. rewrite (lstrip_space_all stdout Hblank).
  reflexivity.
Qed.

(** ** More on the pattern of the Go probe *)

Lemma substring_prefix (a b : string) :
  substring 0 (String.length a) (a ++ b) = a.
Proof.
  induction a as [|c a IH]; simpl.
  - destruct b; reflexivity.
  - rewrite IH. reflexivity.
Qed.

Lemma star_greedy_split (cls : ascii -> bool) (k : cont) (s : string) :
  forall pos caps m,
    star_greedy cls k pos s caps = Some m ->
    exists a b,
      s = a ++ b /\ all_chars cls a = true
      /\ k (pos + String.length a)%nat b caps = Some m.
Proof.
  induction s as [|c s IH]; simpl; intros pos caps m H.
  - exists EmptyString, EmptyString. rewrite Nat.add_0_r.
    repeat split. exact H.
  - destruct (cls c) eqn:Hc.
    + destruct (star_greedy cls k (S pos) s caps) as [m'|] eqn:Hrec.
      * injection H as <-. apply IH in Hrec.
        destruct Hrec as (a & b & -> & Ha & Hk).
        exists (String c a), b. simpl. rewrite Hc, Ha.
        repeat split. rewrite Nat.add_succ_r. exact Hk.
      * exists EmptyString, (String c s). rewrite Nat.add_0_r.
        repeat split. exact H.
    + exists EmptyString, (String c s). rewrite Nat.add_0_r.
      repeat split. exact H.
Qed.

Lemma plus_greedy_split (cls : ascii -> bool) (k : cont) (s : string)
    (pos : nat) (caps m : captures) :
  plus_greedy cls k pos s caps = Some m ->
  exists a b,
    s = a ++ b /\ nonempty a = true /\ all_chars cls a = true
    /\ k (pos + String.length a)%nat b caps = Some m.
Proof.
  unfold plus_greedy. destruct s as [|c s]; [discriminate|].
  destruct (cls c) eqn:Hc; [|discriminate].
  intros H. apply star_greedy_split in H.
  destruct H as (a & b & -> & Ha & Hk).
  exists (String c a), b. simpl. rewrite Hc, Ha.
  repeat split. rewrite Nat.add_succ_r. exact Hk.
Qed.

Lemma add_sub_same (p n : nat) : (p + n - p)%nat = n.
Proof. lia. Qed.

(** The groups of a match of the Go pattern: the first two are non-empty
    runs without white space, the third is absent or a non-empty run
    without "]". *)
Lemma go_line_re_fields (line : string) (m : captures) :
  re_match go_line_re line = Some m ->
  exists g1 g2,
    group m 1 = Some g1 /\ nonempty g1 = true
    /\ all_chars nonspace g1 = true
    /\ group m 2 = Some g2 /\ nonempty g2 = true
    /\ all_chars nonspace g2 = true
    /\ (group m 3 = None
        \/ exists g3,
             group m 3 = Some g3 /\ nonempty g3 = true
             /\ all_chars not_rbracket g3 = true).
Proof.
  unfold re_match, go_line_re. cbn [rmatch Nat.eqb].
  intros H.
  apply plus_greedy_split in H.
  destruct H as (a1 & b1 & -> & Hne1 & Hall1 & H).
  apply plus_greedy_split in H.
  destruct H as (a2 & b2 & -> & Hne2 & Hall2 & H).
  apply plus_greedy_split in H.
  destruct H as (a3 & b3 & -> & Hne3 & Hall3 & H).
  rewrite Nat.add_0_l, Nat.sub_0_r, add_sub_same, !substring_prefix in H.
  exists a1, a3.
  match type of H with
  | match ?inner with _ => _ end = _ => destruct inner as [m'|] eqn:Hopt
  end.
  - injection H as <-.
    apply plus_greedy_split in Hopt.
    destruct Hopt as (a4 & b4 & -> & Hne4 & Hall4 & Hopt).
    destruct b4 as [|c4 b4]; [discriminate|].
    destruct (Ascii.eqb "[" c4); [|discriminate].
    apply plus_greedy_split in Hopt.
    destruct Hopt as (a5 & b5 & -> & Hne5 & Hall5 & Hopt).
    rewrite add_sub_same, substring_prefix in Hopt.
    destruct b5 as [|c5 b5]; [discriminate|].
    destruct (Ascii.eqb "]" c5); [|discriminate].
    injection Hopt as <-. cbn [group Nat.eqb].
    repeat split; try assumption.
    right. exists a5. repeat split; assumption.
  - injection H as <-. cbn [group Nat.eqb].
    repeat split; try assumption.
    left. reflexivity.
Qed.

Lemma go_record_is_well_formed (line : string) (update : UpdateRecord) :
  go_differs line = true ->
  go_record max_str_digits line update ->
  go_record_well_formed update.
Proof.
  intros Hdiff (m & g1 & g2 & g3 & Hm & Hg1 & Hg2 & Hg3
                & Hname & Hcur & Hlat & Hchange & Hkind).
  unfold go_differs in Hdiff. rewrite Hm, Hg2, Hg3 in Hdiff.
  apply go_line_re_fields in Hm.
  destruct Hm as (g1' & g2' & Hg1' & Hne1 & Hall1 & Hg2' & Hne2 & Hall2
                  & Hthird).
  rewrite Hg1 in Hg1'. injection Hg1' as <-.
  rewrite Hg2 in Hg2'. injection Hg2' as <-.
  destruct Hthird as [Hnone | (g3' & Hg3' & Hne3 & Hall3)];
    [congruence|].
  rewrite Hg3 in Hg3'. injection Hg3' as <-.
  exists g1, g2, g3.
  repeat (split; [assumption|]).
  split.
  - intros ->. rewrite String.eqb_refl in Hdiff. discriminate.
  - rewrite Hchange.
    destruct (parse_version_triple g2) as (a & b & c & Hs & _).
    destruct (parse_version_triple g3) as (a' & b' & c' & Ht & _).
    rewrite (determine_semver_change_parsed _ _ _ _ _ _ _ _ Hs Ht).
    destruct (a =? a')%Z, (b =? b')%Z, (c =? c')%Z; simpl; auto 8.
Qed.

Lemma Forall2_filter_right {A B} (R : A -> B -> Prop) (P : B -> Prop)
    (f : A -> bool) (l : list A) (l' : list B) :
  (forall x y, f x = true -> R x y -> P y) ->
  Forall2 R (filter f l) l' -> Forall P l'.
Proof.
  intros HP H. remember (filter f l) as fl eqn:Hfl.
  assert (Hin : forall x, In x fl -> f x = true).
  { intros x Hx. subst fl. apply filter_In in Hx. apply Hx. }
  clear Hfl. induction H as [|x y fl l' HR HF IH]; constructor.
  - apply (HP x); [apply Hin; left; reflexivity | exact HR].
  - apply IH. intros z Hz. apply Hin. right. exact Hz.
Qed.

(** X11.  Every update record of the Go probe is well formed: its name and
    its two versions are non-empty strings, the name and the current
    version without white space, the latest version without "]" and
    different from the current one; the change type is never "unknown" and
    there is no "kind". *)
Theorem go_probe_records_well_formed (w : World) (root module_path : Path)
    (out : list out_item) (r : EcosystemResult) (update : UpdateRecord) :
  analyze_go_deps max_str_digits w root module_path = (out, inr r) ->
  In update (default [] (updates r)) ->
  go_record_well_formed update.
Proof.
  intros Hrun Hin.
  destruct (analyze_go_deps_cases w root module_path)
    as (out' & r' & Heq & Hcases).
  rewrite Heq in Hrun. injection Hrun as _ <-.
  destruct Hcases
    as [(msg & -> & _) | (stdout & stderr & ups & _ & _ & -> & HF)];
    [destruct Hin|].
  cbn [updates default] in Hin.
  apply (Forall2_filter_right _ go_record_well_formed) in HF.
  - eapply Forall_forall in HF; eassumption.
  - apply go_record_is_well_formed.
Qed.

(** A greedy run takes all of [a] when what follows does not start with a
    character of the class and the rest of the pattern then matches. *)
Lemma star_greedy_run (cls : ascii -> bool) (k : cont) (a b : string) :
  all_chars cls a = true ->
  (forall c b', b = String c b' -> cls c = false) ->
  forall pos caps m,
    k (pos + String.length a)%nat b caps = Some m ->
    star_greedy cls k pos (a ++ b) caps = Some m.
Proof.
  intros Ha Hb. induction a as [|c a IH]; intros pos caps m Hk.
  - cbn [append String.length] in *. rewrite Nat.add_0_r in Hk.
    destruct b as [|c b']; [exact Hk|].
    cbn [star_greedy]. rewrite (Hb c b' eq_refl). exact Hk.
  - cbn [all_chars] in Ha. apply andb_prop in Ha. destruct Ha as [Hc Ha].
    cbn [append star_greedy String.length] in *. rewrite Hc.
    rewrite Nat.add_succ_r in Hk.
    rewrite (IH Ha (S pos) caps m Hk). reflexivity.
Qed.

Lemma plus_greedy_run (cls : ascii -> bool) (k : cont) (a b : string) :
  run_of cls a = true ->
  (forall c b', b = String c b' -> cls c = false) ->
  forall pos caps m,
    k (pos + String.length a)%nat b caps = Some m ->
    plus_greedy cls k pos (a ++ b) caps = Some m.
Proof.
  unfold run_of. intros Ha Hb pos caps m Hk.
  apply andb_prop in Ha. destruct Ha as [Hne Ha].
  destruct a as [|c a]; [discriminate|].
  cbn [all_chars] in Ha. apply andb_prop in Ha. destruct Ha as [Hc Ha].
  cbn [append plus_greedy String.length] in *. rewrite Hc.
  rewrite Nat.add_succ_r in Hk.
  apply (star_greedy_run cls k a b Ha Hb (S pos) caps m Hk).
Qed.

Lemma starts_outside (cls cls' : ascii -> bool) (a b : string) :
  run_of cls' a = true ->
  (forall c, cls' c = true -> cls c = false) ->
  forall c b', a ++ b = String c b' -> cls c = false.
Proof.
  unfold run_of. intros Ha Hcls c b' Heq.
  apply andb_prop in Ha. destruct Ha as [Hne Ha].
  destruct a as [|c0 a]; [discriminate|].
  cbn [append] in Heq. injection Heq as <- _.
  cbn [all_chars] in Ha. apply andb_prop in Ha. apply Hcls, Ha.
Qed.

Lemma space_not_nonspace (c : ascii) : isspace c = true -> nonspace c = false.
Proof. unfold nonspace. intros ->. reflexivity. Qed.

Lemma nonspace_not_space (c : ascii) : nonspace c = true -> isspace c = false.
Proof. unfold nonspace. apply negb_true_iff. Qed.

Lemma first_success {A} (x y : option A) (m : A) :
  x = Some m -> match x with Some m' => Some m' | None => y end = Some m.
Proof. intros ->. reflexivity. Qed.

(** The pattern on a line "name current [latest]". *)
Lemma go_line_re_with_latest
    (module_name ws current_version ws' latest_version tail : string) :
  run_of nonspace module_name = true ->
  run_of isspace ws = true ->
  run_of nonspace current_version = true ->
  run_of isspace ws' = true ->
  run_of not_rbracket latest_version = true ->
  re_match go_line_re
    (module_name ++ ws ++ current_version ++ ws'
     ++ String "[" (latest_version ++ String "]" tail))
  = Some [(3, latest_version); (2, current_version); (1, module_name)]%nat.
Proof.
  intros Hname Hws Hcur Hws' Hlat.
  unfold re_match, go_line_re. cbn [rmatch Nat.eqb].
  apply plus_greedy_run;
    [exact Hname | apply (starts_outside _ _ _ _ Hws space_not_nonspace) |].
  apply plus_greedy_run;
    [exact Hws | apply (starts_outside _ _ _ _ Hcur nonspace_not_space) |].
  apply plus_greedy_run;
    [exact Hcur | apply (starts_outside _ _ _ _ Hws' space_not_nonspace) |].
  rewrite Nat.add_0_l, Nat.sub_0_r, add_sub_same, !substring_prefix.
  apply first_success.
  apply plus_greedy_run;
    [exact Hws' | intros c b' Heq; injection Heq as <- _; reflexivity |].
  rewrite Ascii.eqb_refl.
  apply plus_greedy_run;
    [exact Hlat | intros c b' Heq; injection Heq as <- _; reflexivity |].
  rewrite Ascii.eqb_refl, add_sub_same, substring_prefix. reflexivity.
Qed.

(** The pattern on a line "name current". *)
Lemma go_line_re_without_latest (module_name ws current_version : string) :
  run_of nonspace module_name = true ->
  run_of isspace ws = true ->
  run_of nonspace current_version = true ->
  re_match go_line_re (module_name ++ ws ++ current_version ++ "")
  = Some [(2, current_version); (1, module_name)]%nat.
Proof.
  intros Hname Hws Hcur.
  unfold re_match, go_line_re. cbn [rmatch Nat.eqb].
  apply plus_greedy_run;
    [exact Hname | apply (starts_outside _ _ _ _ Hws space_not_nonspace) |].
  apply plus_greedy_run;
    [exact Hws | apply (starts_outside _ _ _ _ Hcur nonspace_not_space) |].
  apply plus_greedy_run; [exact Hcur | discriminate |].
  rewrite Nat.add_0_l, Nat.sub_0_r, add_sub_same, !substring_prefix.
  reflexivity.
Qed.

Lemma append_empty (s : string) : s ++ "" = s.
Proof.
  induction s as [|c s IH]; simpl; [reflexivity | rewrite IH; reflexivity].
Qed.

Lemma nonempty_append (a b : string) :
  nonempty a = true -> nonempty (a ++ b) = true.
Proof. destruct a; [discriminate | reflexivity]. Qed.

(** X12.  A line of the documented form, a module name, a version and a
    bracketed latest version separated by white space, is read into these
    three fields: it counts as a dependency, and it adds the update record
    of the fields exactly when the two versions differ as strings,
    whatever follows the closing bracket.  The same line without the
    bracketed part counts as a dependency and adds no record. *)
Theorem go_line_reads_fields
    (module_name ws current_version ws' latest_version tail : string)
    (total_deps outdated_count : Z) (updates : list UpdateRecord) :
  run_of nonspace module_name = true ->
  run_of isspace ws = true ->
  run_of nonspace current_version = true ->
  run_of isspace ws' = true ->
  run_of not_rbracket latest_version = true ->
  go_line max_str_digits (total_deps, outdated_count, updates)
    (module_name ++ ws ++ current_version ++ ws'
     ++ "[" ++ latest_version ++ "]" ++ tail)
  = (if String.eqb latest_version current_version
     then ((total_deps + 1)%Z, outdated_count, updates)
     else ((total_deps + 1)%Z, (outdated_count + 1)%Z,
           (updates
            ++ [go_update max_str_digits module_name current_version
                  latest_version])%list))
  /\ go_line max_str_digits (total_deps, outdated_count, updates)
       (module_name ++ ws ++ current_version)
     = ((total_deps + 1)%Z, outdated_count, updates).
Proof.
  intros Hname Hws Hcur Hws' Hlat.
  assert (Hne : forall rest, nonempty (module_name ++ rest) = true).
  { intros rest. apply nonempty_append.
    unfold run_of in Hname. apply andb_prop in Hname. apply Hname. }
  split.
  - unfold go_line. rewrite Hne. cbn [negb append].
    rewrite (go_line_re_with_latest _ _ _ _ _ tail Hname Hws Hcur Hws' Hlat).
    cbn [group Nat.eqb of_group py_truthy].
    unfold run_of in Hlat. apply andb_prop in Hlat.
    destruct Hlat as [-> _]. unfold py_ne. cbn [py_eq andb].
    destruct (String.eqb latest_version current_version); reflexivity.
  - unfold go_line. rewrite Hne. cbn [negb].
    rewrite <- (append_empty current_version) at 1.
    rewrite (go_line_re_without_latest _ _ _ Hname Hws Hcur).
    reflexivity.
Qed.

(** ** More on the report and the entry point *)

(** The count of a result is the number of its records, a result without
    the keys counting for none. *)
Lemma probe_result_count (w : World) (root : Path) (r : EcosystemResult) :
  r = empty_result
  \/ (exists o,
        analyze_cargo_deps max_str_digits json_loads w root = (o, inr r))
  \/ (exists key, from_go_probe max_str_digits w root (key, r)) ->
  default 0%Z (outdated_count r)
  = Z.of_nat (List.length (default [] (updates r))).
Proof.
  intros [-> | [(o & Hcargo) | (key & module_path & o & Hgo)]].
  - reflexivity.
  - destruct (analyze_cargo_deps_cases w root)
      as [(out' & msg & Heq & _) | (stdout & stderr & _ & Heq)];
      rewrite Heq in Hcargo.
    + injection Hcargo as _ <-. reflexivity.
    + injection Hcargo as _ Htry. apply cargo_try_spec in Htry.
      destruct Htry as [(_ & ->) | (data & total & ups & _ & -> & _)];
        reflexivity.
  - cbn [snd] in Hgo.
    destruct (analyze_go_deps_cases w root module_path)
      as (out' & r' & Heq & Hcases).
    rewrite Heq in Hgo. injection Hgo as _ <-.
    destruct Hcases
      as [(msg & -> & _) | (stdout & stderr & ups & _ & _ & -> & _)];
      reflexivity.
Qed.

Lemma sum_lengths {A B} (f : A -> Z) (g : A -> list B) (l : list A) :
  Forall (fun x => f x = Z.of_nat (List.length (g x))) l ->
  sum (map f l) = Z.of_nat (List.length (flat_map g l)).
Proof.
  intros H. unfold sum.
  assert (Hacc : forall acc,
            fold_left Z.add (map f l) acc
            = (acc + Z.of_nat (List.length (flat_map g l)))%Z).
  { induction H as [|x l Hx Hl IH]; intros acc; simpl.
    - lia.
    - rewrite IH, Hx, length_app. lia. }
  rewrite Hacc. lia.
Qed.

(** In a generated report the counts add up to the number of update
    records. *)
Lemma generated_report_counts (w : World) (root : Path)
    (out : list out_item) (report : Report) :
  generate_report max_str_digits json_loads w root = (out, inr report) ->
  summary report
  = Some {| total_rust_updates :=
              Z.of_nat (List.length (default [] (updates (rust report))));
            total_go_updates :=
              Z.of_nat
                (List.length
                   (flat_map (fun module => default [] (updates module))
                      (values (go_modules report))));
            total_updates :=
              Z.of_nat (List.length (report_updates report));
            has_major_updates_flag := has_major_updates report;
            has_security_updates_flag := false |}
  /\ outdated_total report
     = Z.of_nat (List.length (report_updates report)).
Proof.
  intros Hgen. apply generate_report_inv in Hgen.
  destruct Hgen as [(err & _ & Habs) | [(o & e & _ & _ & Habs) | Hgen]];
    try discriminate.
  destruct Hgen as (date & report' & _ & Heq & Hsum & Hrust & Hgo).
  injection Heq as <-.
  assert (Hr : default 0%Z (outdated_count (rust report))
               = Z.of_nat
                   (List.length (default [] (updates (rust report))))).
  { apply (probe_result_count w root).
    destruct Hrust as [-> | Hrust]; [left; reflexivity | right; left].
    exact Hrust. }
  assert (Hg : sum (map (fun module => default 0%Z (outdated_count module))
                      (values (go_modules report)))
               = Z.of_nat
                   (List.length
                      (flat_map (fun module => default [] (updates module))
                         (values (go_modules report))))).
  { apply sum_lengths. unfold values. apply Forall_forall. intros r Hin.
    apply in_map_iff in Hin. destruct Hin as ([key r'] & <- & Hin).
    eapply Forall_forall in Hgo; [|exact Hin]. cbn [snd].
    apply (probe_result_count w root). right. right. exists key. exact Hgo. }
  assert (Ht : outdated_total report
               = Z.of_nat (List.length (report_updates report))).
  { unfold outdated_total, report_updates.
    rewrite Hr, Hg, length_app. lia. }
  split; [|exact Ht].
  rewrite Hsum, Hr, Hg, Ht. reflexivity.
Qed.

(** X13.  In a generated report [summary.total_updates] is the number of
    update records the report holds, those of the Rust result and of every
    Go module together; the two partial totals count the records of their
    ecosystem and add up to it. *)
Theorem total_updates_counts_records (w : World) (root : Path)
    (out : list out_item) (report : Report) :
  generate_report max_str_digits json_loads w root = (out, inr report) ->
  exists s,
    summary report = Some s
    /\ total_updates s = Z.of_nat (List.length (report_updates report))
    /\ total_rust_updates s
       = Z.of_nat (List.length (default [] (updates (rust report))))
    /\ total_go_updates s
       = Z.of_nat
           (List.length
              (flat_map (fun module => default [] (updates module))
                 (values (go_modules report))))
    /\ total_updates s = (total_rust_updates s + total_go_updates s)%Z.
Proof.
  intros Hgen. apply generated_report_counts in Hgen.
  destruct Hgen as [Hsum _]. eexists. split; [exact Hsum|].
  cbn [total_updates total_rust_updates total_go_updates].
  repeat split. unfold report_updates. rewrite length_app. lia.
Qed.

(** X14.  When [main] ends with an exit status on an existing project
    root, the status tells whether the report holds an update record: 1
    when it holds one, 0 when it holds none. *)
Theorem exit_status_tells_updates (w : World) (args : Args)
    (out : list out_item) (status : Z) :
  path_exists w (resolve w (args_project_root args)) = true ->
  run_main max_str_digits json_loads w args = (out, Exit status) ->
  exists o report,
    generate_report max_str_digits json_loads w
      (resolve w (args_project_root args)) = (o, inr report)
    /\ (status = 1%Z <-> report_updates report <> [])
    /\ (status = 0%Z <-> report_updates report = []).
Proof.
  intros Hroot Hrun. apply run_main_inv in Hrun. cbv zeta in Hrun.
  destruct Hrun as [(Habs & _) | [(_ & e & _ & Habs) | Hrun]];
    [congruence | discriminate |].
  destruct Hrun as (_ & o & report & Hgen & Hend).
  destruct Hend as [(file & err & _ & _ & _ & Habs) | (_ & Hstatus)];
    [discriminate|].
  injection Hstatus as ->. exists o, report. split; [exact Hgen|].
  destruct (generated_report_counts w _ o report Hgen) as [_ ->].
  destruct (report_updates report) as [|u ups]; simpl.
  - split; split; (reflexivity || discriminate || congruence).
  - split; split; (reflexivity || discriminate || congruence).
Qed.

Lemma path_name_joinpath (p : Path) (part : string) :
  path_name (joinpath p part) = part.
Proof. apply last_last. Qed.

Lemma path_parent_joinpath (p : Path) (part : string) :
  path_parent (joinpath p part) = p.
Proof. apply removelast_last. Qed.

(** One turn of the loop over the candidate directories, for the directory
    [root/a/b]. *)
Lemma go_module_step_candidate (w : World) (root : Path) (a b : string)
    (report : Report) :
  exists out r,
    analyze_go_deps max_str_digits w root (joinpath (joinpath root a) b)
    = (out, inr r)
    /\ go_module_step max_str_digits w root report
         (joinpath (joinpath root a) b)
       = if path_exists w (joinpath (joinpath root a) b)
         then (out,
               inr {| timestamp := timestamp report;
                      project_root := project_root report;
                      rust := rust report;
                      go_modules :=
                        dict_set (a ++ "/" ++ b) r (go_modules report);
                      summary := summary report |})
         else ([], inr report).
Proof.
  destruct (analyze_go_deps_cases w root (joinpath (joinpath root a) b))
    as (out & r & Heq & _).
  exists out, r. split; [exact Heq|].
  unfold go_module_step.
  destruct (path_exists w (joinpath (joinpath root a) b)); [|reflexivity].
  rewrite Heq, path_parent_joinpath, !path_name_joinpath.
  cbn [bind ret app]. rewrite app_nil_r. reflexivity.
Qed.

(** The loop over the candidate directories, started without Go
    results. *)
Lemma go_modules_candidates_loop (w : World) (root : Path)
    (report : Report) :
  go_modules report = [] ->
  exists out report',
    for_each (map snd (go_module_candidates root))
      (go_module_step max_str_digits w root) report
    = (out, inr report')
    /\ Forall2 (go_module_entry max_str_digits w root) (go_modules report')
         (filter (fun candidate => path_exists w (snd candidate))
            (go_module_candidates root)).
Proof.
  intros Hempty. unfold go_module_candidates. cbn [map snd for_each filter].
  destruct (go_module_step_candidate w root "bindings" "go" report)
    as (out1 & r1 & Hp1 & ->).
  destruct (path_exists w (joinpath (joinpath root "bindings") "go"));
    cbn [bind];
    match goal with
    | |- context [go_module_step _ _ _ ?rep _] =>
        destruct (go_module_step_candidate w root "examples" "goclient" rep)
          as (out2 & r2 & Hp2 & ->)
    end;
    destruct (path_exists w (joinpath (joinpath root "examples") "goclient"));
    cbn [bind ret app go_modules]; rewrite ?Hempty;
    do 2 eexists; (split; [reflexivity|]);
    cbn [go_modules dict_set String.eqb Ascii.eqb Bool.eqb];
    rewrite ?Hempty;
    repeat constructor; cbn [fst snd]; try reflexivity;
    eexists; eassumption.
Qed.

(** The Go part of a generated report. *)
Lemma generated_go_modules (w : World) (root : Path)
    (out : list out_item) (report : Report) :
  generate_report max_str_digits json_loads w root = (out, inr report) ->
  Forall2 (go_module_entry max_str_digits w root) (go_modules report)
    (filter (fun candidate => path_exists w (snd candidate))
       (go_module_candidates root)).
Proof.
  unfold generate_report.
  destruct (check_output w ["date"; "+%Y-%m-%d %H:%M:%S"]) as [err|date];
    [discriminate|].
  cbn [external lift ok bind app].
  assert (Hloop : forall report1,
            go_modules report1 = [] ->
            exists o2 report2,
              for_each
                [joinpath (joinpath root "bindings") "go";
                 joinpath (joinpath root "examples") "goclient"]
                (go_module_step max_str_digits w root) report1
              = (o2, inr report2)
              /\ Forall2 (go_module_entry max_str_digits w root)
                   (go_modules report2)
                   (filter (fun candidate => path_exists w (snd candidate))
                      (go_module_candidates root))).
  { apply go_modules_candidates_loop. }
  destruct (path_exists w (joinpath root "Cargo.toml")).
  - destruct (analyze_cargo_deps max_str_digits json_loads w root)
      as [o [e|rust_result]]; [discriminate|].
    cbn [bind ret app].
    match goal with
    | |- context [for_each _ _ ?rep] =>
        destruct (Hloop rep eq_refl) as (o2 & report2 & -> & HF)
    end.
    cbn [bind ret app]. intros H. injection H as _ <-. exact HF.
  - cbn [bind ret app].
    match goal with
    | |- context [for_each _ _ ?rep] =>
        destruct (Hloop rep eq_refl) as (o2 & report2 & -> & HF)
    end.
    cbn [bind ret app]. intros H. injection H as _ <-. exact HF.
Qed.

(** X15.  The Go results of a generated report are those of the candidate
    directories bindings/go and examples/goclient that exist, in that
    order, each filed under that name with what the Go probe returns for
    the directory; a directory that does not exist leaves no entry. *)
Theorem go_modules_of_generated_report (w : World) (root : Path)
    (out : list out_item) (report : Report) :
  generate_report max_str_digits json_loads w root = (out, inr report) ->
  Forall2 (go_module_entry max_str_digits w root) (go_modules report)
    (filter (fun candidate => path_exists w (snd candidate))
       (go_module_candidates root))
  /\ map fst (go_modules report)
     = map fst
         (filter (fun candidate => path_exists w (snd candidate))
            (go_module_candidates root)).
Proof.
  intros Hgen. apply generated_go_modules in Hgen.
  split; [exact Hgen|].
  induction Hgen as [|entry candidate entries candidates [Hkey _] _ IH];
    [reflexivity|].
  cbn [map]. rewrite Hkey, IH. reflexivity.
Qed.

(** ** What [main] prints *)

Lemma bind_lines {A B} (m : M A) (k : A -> M B) :
  forallb is_line (fst m) = true ->
  (forall a, forallb is_line (fst (k a)) = true) ->
  forallb is_line (fst (bind m k)) = true.
Proof.
  destruct m as [out [e|a]]; simpl; intros Hm Hk; [exact Hm|].
  specialize (Hk a). destruct (k a) as [out' r]. simpl in *.
  rewrite forallb_app, Hm, Hk. reflexivity.
Qed.

(** The Cargo probe announces itself before anything else, and prints
    lines only. *)
Lemma analyze_cargo_deps_prints (w : World) (root : Path) :
  exists rest r,
    analyze_cargo_deps max_str_digits json_loads w root
    = (Line "Analyzing Rust dependencies..." :: rest, r)
    /\ forallb is_line rest = true.
Proof.
  unfold analyze_cargo_deps.
  destruct (run_command w root ["cargo"; "outdated"; "--version"] None)
    as [[rc1 out1] err1].
  destruct (run_command w root
              ["cargo"; "outdated"; "--workspace"; "--format"; "json"] None)
    as [[rc2 stdout] stderr].
  destruct (Z.eqb rc1 0); simpl.
  - destruct (Z.eqb rc2 0); simpl.
    + destruct (cargo_try max_str_digits json_loads stdout);
        do 2 eexists; split; reflexivity.
    + do 2 eexists; split; reflexivity.
  - do 2 eexists; split; reflexivity.
Qed.

Lemma analyze_go_deps_prints (w : World) (root module_path : Path) :
  forallb is_line (fst (analyze_go_deps max_str_digits w root module_path))
  = true.
Proof.
  unfold analyze_go_deps.
  destruct (path_exists w (joinpath module_path "go.mod")); [|reflexivity].
  destruct (run_command w root ["go"; "list"; "-u"; "-m"; "all"]
              (Some module_path)) as [[rc stdout] stderr].
  cbn [negb]. destruct (Z.eqb rc 0); cbn [negb]; [|reflexivity].
  destruct (fold_left (go_line max_str_digits)
              (split newline (strip stdout)) (0%Z, 0%Z, []))
    as [[total outdated] ups].
  reflexivity.
Qed.

Lemma go_modules_loop_prints (w : World) (root : Path) (dirs : list Path) :
  forall report,
    forallb is_line
      (fst (for_each dirs (go_module_step max_str_digits w root) report))
    = true.
Proof.
  induction dirs as [|dir dirs IH]; intros report; [reflexivity|].
  cbn [for_each]. apply bind_lines; [|intros report'; apply IH].
  unfold go_module_step. destruct (path_exists w dir); [|reflexivity].
  apply bind_lines; [apply analyze_go_deps_prints | reflexivity].
Qed.

Lemma generate_report_prints (w : World) (root : Path) :
  forallb is_line (fst (generate_report max_str_digits json_loads w root))
  = true
  /\ (path_exists w (joinpath root "Cargo.toml") = true ->
      forall o report,
        generate_report max_str_digits json_loads w root = (o, inr report) ->
        exists rest, o = Line "Analyzing Rust dependencies..." :: rest).
Proof.
  split.
  - unfold generate_report.
    apply bind_lines; [reflexivity | intros date]. cbv zeta.
    apply bind_lines.
    + destruct (path_exists w (joinpath root "Cargo.toml")); [|reflexivity].
      apply bind_lines; [|reflexivity].
      destruct (analyze_cargo_deps_prints w root) as (rest & r & -> & Hrest).
      exact Hrest.
    + intros report. apply bind_lines; [|reflexivity].
      apply go_modules_loop_prints.
  - intros Hmanifest o report. unfold generate_report.
    destruct (check_output w ["date"; "+%Y-%m-%d %H:%M:%S"]) as [err|date];
      [discriminate|].
    cbn [external lift ok bind app]. rewrite Hmanifest.
    destruct (analyze_cargo_deps_prints w root) as (rest & r & -> & _).
    destruct r as [e|rust_result]; [discriminate|].
    cbn [bind ret app].
    match goal with
    | |- context [for_each ?dirs ?body ?rep] =>
        destruct (for_each dirs body rep) as [o2 [e|report2]]
    end; [discriminate|].
    cbn [bind ret app]. intros H. injection H as <- _.
    eexists. reflexivity.
Qed.

(** What [main] prints when the report is generated and the [--save] step
    writes nothing or writes without error. *)
Lemma main_prints (w : World) (args : Args) (o : list out_item)
    (report : Report) :
  path_exists w (resolve w (args_project_root args)) = true ->
  generate_report max_str_digits json_loads w
    (resolve w (args_project_root args)) = (o, inr report) ->
  save_succeeds w args report ->
  fst (run_main max_str_digits json_loads w args)
  = (o ++ [rendering args report] ++ saved_message args)%list.
Proof.
  intros Hroot Hgen Hsave.
  pose proof (generate_report_inv w _ o _ Hgen) as Hinv.
  destruct Hinv as [(err & _ & Habs) | [(o' & e' & _ & _ & Habs) | Hinv]];
    try discriminate.
  destruct Hinv as (date & report' & _ & Heq & Hsum & _).
  injection Heq as <-.
  unfold run_main, main. rewrite Hroot, Hgen. cbn [negb bind ret app].
  rewrite Hsum. cbn [total_updates].
  unfold save_succeeds in Hsave. unfold rendering, saved_message.
  unfold print_report, print, sys_exit, throw, ret, bind.
  destruct (String.eqb (args_output args) "json");
    destruct (args_save args) as [file|];
    try destruct (nonempty file) eqn:Hfile;
    try (destruct Hsave as [Hsave | Hsave]; [congruence|]; rewrite Hsave);
    destruct (outdated_total report >? 0)%Z;
    cbn; rewrite ?app_nil_r; reflexivity.
Qed.

(** X16.  When the report is generated and the [--save] step writes
    nothing or writes without error, [main] prints what the probes
    printed, then one rendering of the report, the one [--output] asks
    for, then the message of [--save] if a file was written.  What the
    probes print is message lines, and with a Cargo.toml at the root the
    first of them is the announcement of the Cargo probe: in the "json"
    mode too the JSON text is not the first thing printed. *)
Theorem main_output (w : World) (args : Args) (o : list out_item)
    (report : Report) :
  path_exists w (resolve w (args_project_root args)) = true ->
  generate_report max_str_digits json_loads w
    (resolve w (args_project_root args)) = (o, inr report) ->
  save_succeeds w args report ->
  fst (run_main max_str_digits json_loads w args)
  = (o ++ [rendering args report] ++ saved_message args)%list
  /\ forallb is_line o = true
  /\ (path_exists w
        (joinpath (resolve w (args_project_root args)) "Cargo.toml") = true ->
      exists rest, o = Line "Analyzing Rust dependencies..." :: rest).
Proof.
  intros Hroot Hgen Hsave.
  split; [apply main_prints; assumption|].
  destruct (generate_report_prints w (resolve w (args_project_root args)))
    as [Hlines Hfirst].
  rewrite Hgen in Hlines. split; [exact Hlines|].
  intros Hmanifest. apply (Hfirst Hmanifest o report Hgen).
Qed.


(** ** Report renderer *)

Lemma get_change_icon_red (change_type : string) :
  get_change_icon change_type = Red <-> change_type = "major".
Proof.
  unfold get_change_icon, icons. cbn [lookup].
  destruct (String.eqb_spec change_type "major") as [->|Hmajor];
    [split; reflexivity|].
  repeat match goal with
  | |- context [String.eqb change_type ?k] =>
      destruct (String.eqb change_type k)
  end; cbn [default]; split; (discriminate || contradiction).
Qed.

Lemma filter_update_lines (ups : list UpdateRecord) :
  filter is_update_line (map update_line ups) = map update_line ups.
Proof.
  induction ups as [|u ups IH]; [reflexivity|].
  cbn [map filter update_line is_update_line]. rewrite IH. reflexivity.
Qed.

(** The update lines of a section are those of the records of its result,
    when a result with an error has no records. *)
Lemma section_body_updates (data : EcosystemResult) :
  (error data <> None -> updates data = None) ->
  filter is_update_line (section_body data)
  = map update_line (default [] (updates data)).
Proof.
  intros Hshape. unfold section_body. rewrite filter_app, app_nil_r.
  destruct (error data) as [msg|].
  - rewrite Hshape by discriminate. cbn [default map List.length Nat.eqb negb].
    destruct (nonempty msg); reflexivity.
  - cbn [default nonempty].
    destruct (default [] (updates data)) as [|u ups]; [reflexivity|].
    cbn [List.length Nat.eqb negb]. apply filter_update_lines.
Qed.

(** A result of either probe that carries an error has no records. *)
Lemma probe_error_no_updates (w : World) (root : Path)
    (r : EcosystemResult) :
  r = empty_result
  \/ (exists o,
        analyze_cargo_deps max_str_digits json_loads w root = (o, inr r))
  \/ (exists key, from_go_probe max_str_digits w root (key, r)) ->
  error r <> None -> updates r = None.
Proof.
  intros [-> | [(o & Hcargo) | (key & module_path & o & Hgo)]] Herr.
  - reflexivity.
  - destruct (analyze_cargo_deps_cases w root)
      as [(out' & msg & Heq & _) | (stdout & stderr & _ & Heq)];
      rewrite Heq in Hcargo.
    + injection Hcargo as _ <-. reflexivity.
    + injection Hcargo as _ Htry. apply cargo_try_spec in Htry.
      destruct Htry as [(_ & ->) | (data & total & ups & _ & -> & _)];
        [reflexivity | exfalso; apply Herr; reflexivity].
  - cbn [snd] in Hgo.
    destruct (analyze_go_deps_cases w root module_path)
      as (out' & r' & Heq & Hcases).
    rewrite Heq in Hgo. injection Hgo as _ <-.
    destruct Hcases
      as [(msg & -> & _) | (stdout & stderr & ups & _ & _ & -> & _)];
      [reflexivity | exfalso; apply Herr; reflexivity].
Qed.

(** An error of the Go probe is a non-empty message. *)
Lemma go_probe_error_nonempty (w : World) (root : Path)
    (entry : string * EcosystemResult) (msg : string) :
  from_go_probe max_str_digits w root entry ->
  error (snd entry) = Some msg ->
  nonempty msg = true /\ outdated_count (snd entry) = None.
Proof.
  intros (module_path & o & Hgo) Herr.
  destruct (analyze_go_deps_cases w root module_path)
    as (out' & r' & Heq & Hcases).
  rewrite Heq in Hgo. injection Hgo as _ Hr. rewrite <- Hr in Herr |- *.
  destruct Hcases
    as [(msg' & -> & Hmsg) | (stdout & stderr & ups & _ & _ & -> & _)];
    [|discriminate].
  injection Herr as <-.
  destruct Hmsg as [-> | (stderr & ->)]; split; reflexivity.
Qed.

(** What a generated report gives the renderer. *)
Lemma generated_report_shape (w : World) (root : Path)
    (out : list out_item) (report : Report) :
  generate_report max_str_digits json_loads w root = (out, inr report) ->
  summary report
  = Some {| total_rust_updates :=
              Z.of_nat (List.length (default [] (updates (rust report))));
            total_go_updates :=
              Z.of_nat
                (List.length
                   (flat_map (fun module => default [] (updates module))
                      (values (go_modules report))));
            total_updates :=
              Z.of_nat (List.length (report_updates report));
            has_major_updates_flag := has_major_updates report;
            has_security_updates_flag := false |}
  /\ (error (rust report) <> None -> updates (rust report) = None)
  /\ Forall (fun item =>
               from_go_probe max_str_digits w root item
               /\ (error (snd item) <> None -> updates (snd item) = None))
       (go_modules report).
Proof.
  intros Hgen.
  destruct (generated_report_counts w root out report Hgen) as [Hsum _].
  split; [exact Hsum|].
  apply generate_report_inv in Hgen.
  destruct Hgen as [(err & _ & Habs) | [(o & e & _ & _ & Habs) | Hgen]];
    try discriminate.
  destruct Hgen as (date & report' & _ & Heq & _ & Hrust & Hgo).
  injection Heq as <-. split.
  - apply (probe_error_no_updates w root).
    destruct Hrust as [-> | Hrust]; [left; reflexivity | right; left].
    exact Hrust.
  - apply Forall_forall. intros [key r] Hin.
    eapply Forall_forall in Hgo; [|exact Hin].
    split; [exact Hgo|]. cbn [snd].
    apply (probe_error_no_updates w root). right. right.
    exists key. exact Hgo.
Qed.

Lemma go_sections_updates (modules : list (string * EcosystemResult)) :
  Forall (fun item => error (snd item) <> None -> updates (snd item) = None)
    modules ->
  filter is_update_line (flat_map go_section modules)
  = map update_line
      (flat_map (fun module => default [] (updates module))
         (values modules)).
Proof.
  induction 1 as [|[key r] modules Hr _ IH]; [reflexivity|].
  cbn [flat_map values map snd go_section app filter is_update_line].
  cbn [snd] in Hr.
  rewrite filter_app, map_app, (section_body_updates r Hr).
  unfold values in IH. rewrite IH. reflexivity.
Qed.

(** The update lines of the rendering of a report with a summary. *)
Lemma print_report_update_lines (report : Report) (s : Summary) :
  summary report = Some s ->
  (error (rust report) <> None -> updates (rust report) = None) ->
  Forall (fun item => error (snd item) <> None -> updates (snd item) = None)
    (go_modules report) ->
  filter is_update_line (fst (print_report_lines report))
  = map update_line (report_updates report).
Proof.
  intros Hsum Hrust Hgo.
  assert (Hr : filter is_update_line (rust_section report)
               = map update_line (default [] (updates (rust report)))).
  { pose proof (section_body_updates _ Hrust) as Hbody.
    unfold rust_section.
    destruct (updates (rust report)) as [ups|]; [|reflexivity].
    cbn [app filter is_update_line]. exact Hbody. }
  unfold print_report_lines. rewrite Hsum. cbn [fst].
  rewrite !filter_app, (go_sections_updates _ Hgo), Hr.
  unfold report_updates. rewrite map_app.
  destruct (has_major_updates_flag s); cbn [filter is_update_line app];
    rewrite app_nil_r; reflexivity.
Qed.

(** X17.  The update lines that [print_report] writes for a generated
    report are, in order, the lines of the update records of the report,
    those of the Rust result first and then those of each Go module; and
    the total on its "Total Updates Available" line is their number. *)
Theorem print_report_lists_every_update (w : World) (root : Path)
    (out : list out_item) (report : Report) :
  generate_report max_str_digits json_loads w root = (out, inr report) ->
  filter is_update_line (fst (print_report_lines report))
  = map update_line (report_updates report)
  /\ In (TotalUpdates
           (Z.of_nat
              (List.length
                 (filter is_update_line (fst (print_report_lines report))))))
       (fst (print_report_lines report)).
Proof.
  intros Hgen.
  destruct (generated_report_shape w root out report Hgen)
    as (Hsum & Hrust & Hgo).
  assert (Hgo' : Forall (fun item => error (snd item) <> None ->
                                     updates (snd item) = None)
                   (go_modules report)).
  { eapply Forall_impl; [|exact Hgo]. intros item [_ H]. exact H. }
  pose proof (print_report_update_lines report _ Hsum Hrust Hgo') as Hlines.
  split; [exact Hlines|].
  rewrite Hlines, length_map.
  unfold print_report_lines. rewrite Hsum. cbn [fst total_updates app].
  do 5 right. left. reflexivity.
Qed.

Lemma update_lines_plain (f : report_line -> bool)
    (ups : list UpdateRecord) :
  (forall u, f (update_line u) = false) ->
  existsb f (map update_line ups) = false.
Proof.
  intros Hf. induction ups as [|u ups IH]; [reflexivity|].
  cbn [map existsb]. rewrite Hf, IH. reflexivity.
Qed.

(** Neither the warning nor a Rust header is printed inside a section
    body or a Go section. *)
Lemma section_body_plain (data : EcosystemResult) :
  existsb is_major_warning (section_body data) = false
  /\ existsb is_rust_header (section_body data) = false.
Proof.
  unfold section_body. rewrite !existsb_app.
  destruct (nonempty (default "" (error data)));
    [split; reflexivity|].
  destruct (negb (Nat.eqb (List.length (default [] (updates data))) 0));
    [|split; reflexivity].
  rewrite !update_lines_plain by reflexivity. split; reflexivity.
Qed.

Lemma go_sections_plain (modules : list (string * EcosystemResult)) :
  existsb is_major_warning (flat_map go_section modules) = false
  /\ existsb is_rust_header (flat_map go_section modules) = false.
Proof.
  induction modules as [|[key r] modules [IHw IHr]]; [split; reflexivity|].
  cbn [flat_map go_section]. rewrite !existsb_app, IHw, IHr.
  destruct (section_body_plain r) as [-> ->]. split; reflexivity.
Qed.

(** The warning is printed exactly when the summary has the flag. *)
Lemma major_warning_printed (report : Report) (s : Summary) :
  summary report = Some s ->
  existsb is_major_warning (fst (print_report_lines report))
  = has_major_updates_flag s.
Proof.
  intros Hsum. unfold print_report_lines. rewrite Hsum. cbn [fst].
  rewrite !existsb_app.
  destruct (go_sections_plain (go_modules report)) as [-> _].
  assert (Hr : existsb is_major_warning (rust_section report) = false).
  { unfold rust_section. destruct (updates (rust report)); [|reflexivity].
    rewrite existsb_app.
    destruct (section_body_plain (rust report)) as [-> _]. reflexivity. }
  rewrite Hr. destruct (has_major_updates_flag s); reflexivity.
Qed.

Lemma in_go_section (report : Report) (s : Summary)
    (item : string * EcosystemResult) (line : report_line) :
  summary report = Some s ->
  In item (go_modules report) ->
  In line (go_section item) ->
  In line (fst (print_report_lines report)).
Proof.
  intros Hsum Hitem Hline. unfold print_report_lines. rewrite Hsum.
  cbn [fst]. apply in_or_app. right.
  apply in_or_app. right. apply in_or_app. right.
  apply in_or_app. right. apply in_or_app. right.
  apply in_or_app. left. apply in_flat_map. exists item.
  split; assumption.
Qed.

(** X18.  In the human report of a generated report a Cargo probe that
    ended with an error leaves no trace: the Rust section is printed only
    for a result with the key "updates", which an error result lacks, so
    the report reads as if the root had no Cargo.toml, without any Rust
    header.  An error of the Go probe is printed under the header of its
    module, with 0 updates. *)
Theorem probe_errors_in_human_report (w : World) (root : Path)
    (out : list out_item) (report : Report) :
  generate_report max_str_digits json_loads w root = (out, inr report) ->
  (error (rust report) <> None ->
   print_report_lines report = print_report_lines (without_rust report)
   /\ forall n, ~ In (RustHeader n) (fst (print_report_lines report)))
  /\ (forall module_name module_data msg,
        In (module_name, module_data) (go_modules report) ->
        error module_data = Some msg ->
        In (GoHeader module_name 0) (fst (print_report_lines report))
        /\ In (ErrorLine msg) (fst (print_report_lines report))).
Proof.
  intros Hgen.
  destruct (generated_report_shape w root out report Hgen)
    as (Hsum & Hrust & Hgo).
  split.
  - intros Herr. specialize (Hrust Herr).
    assert (Hsection : rust_section report = []).
    { unfold rust_section. rewrite Hrust. reflexivity. }
    split.
    + unfold print_report_lines, without_rust.
      cbn [summary timestamp project_root go_modules].
      rewrite Hsection. reflexivity.
    + intros n Hin.
      assert (Hex : existsb is_rust_header (fst (print_report_lines report))
                    = true).
      { apply existsb_exists. exists (RustHeader n).
        split; [exact Hin | reflexivity]. }
      unfold print_report_lines in Hex. rewrite Hsum in Hex.
      cbn [fst] in Hex. rewrite Hsection, !existsb_app in Hex.
      destruct (go_sections_plain (go_modules report)) as [_ Hplain].
      rewrite Hplain in Hex.
      destruct (has_major_updates report); discriminate.
  - intros module_name module_data msg Hin Herr.
    eapply Forall_forall in Hgo; [|exact Hin]. destruct Hgo as [Hprobe _].
    destruct (go_probe_error_nonempty w root _ msg Hprobe Herr)
      as [Hmsg Hcount].
    cbn [snd] in Hcount.
    assert (Hsection : go_section (module_name, module_data)
                       = [GoHeader module_name 0; Text (str_mul "-" 40);
                          ErrorLine msg; Text ""]).
    { unfold go_section, section_body.
      rewrite Herr, Hcount. cbn [default]. rewrite Hmsg. reflexivity. }
    split; eapply in_go_section; try eassumption; rewrite Hsection.
    + left. reflexivity.
    + right. right. left. reflexivity.
Qed.

(** X19.  In the human report of a generated report the warning about
    major updates is printed exactly when some update line carries the red
    icon, the icon of the change type "major" and of no other. *)
Theorem major_warning_iff_red_line (w : World) (root : Path)
    (out : list out_item) (report : Report) :
  generate_report max_str_digits json_loads w root = (out, inr report) ->
  (In major_warning (fst (print_report_lines report))
   <-> exists name current latest,
         In (UpdateLine Red name current latest)
            (fst (print_report_lines report)))
  /\ (forall change_type,
        get_change_icon change_type = Red <-> change_type = "major").
Proof.
  intros Hgen.
  destruct (generated_report_shape w root out report Hgen)
    as (Hsum & Hrust & Hgo).
  assert (Hgo' : Forall (fun item => error (snd item) <> None ->
                                     updates (snd item) = None)
                   (go_modules report)).
  { eapply Forall_impl; [|exact Hgo]. intros item [_ H]. exact H. }
  pose proof (print_report_update_lines report _ Hsum Hrust Hgo') as Hlines.
  pose proof (major_warning_printed report _ Hsum) as Hwarn.
  cbn [has_major_updates_flag] in Hwarn.
  split; [|apply get_change_icon_red].
  split.
  - intros Hin.
    assert (Hex : existsb is_major_warning (fst (print_report_lines report))
                  = true).
    { apply existsb_exists. exists major_warning.
      split; [exact Hin | reflexivity]. }
    rewrite Hwarn in Hex. apply has_major_updates_iff in Hex.
    destruct Hex as (u & Hu & Hmajor).
    exists (name u), (current u), (latest u).
    assert (Hline : In (update_line u)
                      (filter is_update_line
                         (fst (print_report_lines report)))).
    { rewrite Hlines. apply in_map. exact Hu. }
    apply filter_In in Hline. destruct Hline as [Hline _].
    unfold update_line in Hline. rewrite Hmajor in Hline. exact Hline.
  - intros (n & c & l & Hin).
    assert (Hline : In (UpdateLine Red n c l)
                      (filter is_update_line
                         (fst (print_report_lines report)))).
    { apply filter_In. split; [exact Hin | reflexivity]. }
    rewrite Hlines in Hline. apply in_map_iff in Hline.
    destruct Hline as (u & Heq & Hu).
    unfold update_line in Heq. injection Heq as Hicon _ _ _.
    apply get_change_icon_red in Hicon.
    assert (Hmajor : has_major_updates report = true).
    { apply has_major_updates_iff. exists u. split; assumption. }
    rewrite <- Hwarn in Hmajor. apply existsb_exists in Hmajor.
    destruct Hmajor as (line & Hline & Hw).
    destruct line; try discriminate.
    cbn [is_major_warning] in Hw. apply String.eqb_eq in Hw. subst text.
    exact Hline.
Qed.


(** ** The probes when a command fails *)

(** X20.  What the command runner makes of a failure reaches the report as
    data.  When the version check of [cargo outdated], run in the project
    root, does anything but complete with exit code 0 (another code, a
    time-out, a launch failure), the Cargo probe prints its hint and
    reports "cargo-outdated not installed", whatever the cause.  When
    [go list], run in the module directory, times out or cannot be
    launched, the Go probe reports the failure with the runner's
    message. *)
Theorem probes_on_failed_command (w : World) (root module_path : Path) :
  ((forall stdout stderr,
      subprocess_run w ["cargo"; "outdated"; "--version"] root 30
      <> Completed 0 stdout stderr) ->
   analyze_cargo_deps max_str_digits json_loads w root
   = ([Line "Analyzing Rust dependencies...";
       Line
        "cargo-outdated not found. Install with: cargo install cargo-outdated"],
      inr (error_result "cargo-outdated not installed")))
  /\ (path_exists w (joinpath module_path "go.mod") = true ->
      subprocess_run w go_list_cmd module_path 30 = TimeoutExpired ->
      snd (analyze_go_deps max_str_digits w root module_path)
      = inr (error_result "Failed to run go list: Command timed out"))
  /\ (forall cls msg,
        path_exists w (joinpath module_path "go.mod") = true ->
        subprocess_run w go_list_cmd module_path 30 = RunError cls msg ->
        snd (analyze_go_deps max_str_digits w root module_path)
        = inr (error_result ("Failed to run go list: " ++ msg))).
Proof.
  split; [|split].
  - intros Hfail. unfold analyze_cargo_deps, run_command. cbn [default].
    destruct (subprocess_run w ["cargo"; "outdated"; "--version"] root 30)
      as [rc stdout stderr| |cls msg]; try reflexivity.
    destruct (Z.eqb_spec rc 0) as [->|Hrc].
    + exfalso. apply (Hfail stdout stderr). reflexivity.
    + reflexivity.
  - intros Hmod Hrun. unfold analyze_go_deps, run_command, go_list_cmd in *.
    rewrite Hmod. cbn [default negb]. rewrite Hrun. reflexivity.
  - intros cls msg Hmod Hrun.
    unfold analyze_go_deps, run_command, go_list_cmd in *.
    rewrite Hmod. cbn [default negb]. rewrite Hrun. reflexivity.
Qed.

End Properties.

(** C3, as the claim has it: "vv2.3.4" does not parse to (0,3,4). *)
Lemma parse_version_vv_not_zero :
  parse_version default_max_str_digits (PStr "vv2.3.4") = inr [2; 3; 4]%Z
  /\ parse_version default_max_str_digits (PStr "vv2.3.4")
     <> inr [0; 3; 4]%Z.
Proof.
  split; [reflexivity | discriminate].
Qed.

(** A segment of 5000 digits is beyond the default limit: [int] raises and
    the bare [except] answers 0. *)
Lemma parse_version_beyond_limit :
  parse_version default_max_str_digits (PStr (rep_char "1" 5000))
  = inr [0; 0; 0]%Z.
Proof.
  vm_compute. reflexivity.
Qed.

(** ** The statements on sample inputs *)

Lemma outdated_count_is_length_witness :
  (exists stdout stderr ups,
     run_command (sample_world "DEPS" sample_go_stdout None) ["proj"]
       cargo_outdated_cmd None = (0%Z, stdout, stderr)
     /\ Some [ {| name := PStr "serde"; current := PStr "1.0.1";
                  latest := PStr "2.0.0"; change_type := "major";
                  kind := Some (PStr "unknown") |} ] = Some ups
     /\ Some 1%Z = Some (Z.of_nat (List.length ups))
     /\ Forall2 (cargo_record default_max_str_digits)
          (filter cargo_differs
             (cargo_dependencies (loads_of "DEPS" sample_deps) stdout))
          ups)
  /\ (exists stdout stderr ups,
        run_command (sample_world "DEPS" sample_go_stdout None) ["proj"]
          go_list_cmd (Some ["proj"; "bindings"; "go"])
        = (0%Z, stdout, stderr)
        /\ Some [ {| name := PStr "github.com/a/b";
                     current := PStr "v1.2.3"; latest := PStr "v1.3.0";
                     change_type := "minor"; kind := None |} ] = Some ups
        /\ Some 1%Z = Some (Z.of_nat (List.length ups))
        /\ Forall2 (go_record default_max_str_digits)
             (filter go_differs (go_lines stdout)) ups).
Proof.
  destruct (outdated_count_is_length default_max_str_digits
              (loads_of "DEPS" sample_deps)
              (sample_world "DEPS" sample_go_stdout None) ["proj"])
    as [Hcargo Hgo].
  split.
  - exact (Hcargo _ _ eq_refl eq_refl).
  - exact (Hgo ["proj"; "bindings"; "go"] _ _ eq_refl eq_refl).
Defined.

Lemma go_total_deps_counts_every_line_witness :
  exists stdout stderr ups,
    run_command (sample_world "DEPS" sample_go_stdout None) ["proj"]
      go_list_cmd (Some ["proj"; "bindings"; "go"])
    = (0%Z, stdout, stderr)
    /\ Some 3%Z = Some (Z.of_nat (List.length (go_lines stdout)))
    /\ Some [ {| name := PStr "github.com/a/b";
                 current := PStr "v1.2.3"; latest := PStr "v1.3.0";
                 change_type := "minor"; kind := None |} ] = Some ups
    /\ Forall2 (go_record default_max_str_digits)
         (filter go_differs (go_lines stdout)) ups
    /\ (forall line, go_matches line = false -> go_differs line = false).
Proof.
  exact (go_total_deps_counts_every_line default_max_str_digits
           (sample_world "DEPS" sample_go_stdout None) ["proj"]
           ["proj"; "bindings"; "go"] _ _ eq_refl eq_refl).
Defined.

(** C6, as the claim has it: on the sample output the probe counts three
    dependencies, and only two of its lines match the pattern. *)
Lemma go_total_deps_counts_unmatched_line :
  snd (analyze_go_deps default_max_str_digits
         (sample_world "DEPS" sample_go_stdout None) ["proj"]
         ["proj"; "bindings"; "go"])
  = inr {| error := None;
           module_path := Some "/proj/bindings/go";
           total_deps := Some 3%Z;
           outdated_count := Some 1%Z;
           updates := Some [ {| name := PStr "github.com/a/b";
                                current := PStr "v1.2.3";
                                latest := PStr "v1.3.0";
                                change_type := "minor"; kind := None |} ];
           security_advisories := None |}
  /\ go_lines sample_go_stdout
     = ["example.com/mod"; "github.com/a/b v1.2.3 [v1.3.0]";
        "github.com/c/d v0.1.0"]
  /\ filter go_matches (go_lines sample_go_stdout)
     = ["github.com/a/b v1.2.3 [v1.3.0]"; "github.com/c/d v0.1.0"]
  /\ Z.of_nat (List.length (filter go_matches (go_lines sample_go_stdout)))
     = 2%Z.
Proof.
  repeat split; reflexivity.
Qed.

Lemma cargo_probe_key_errors_witness :
  (exists key,
     snd (analyze_cargo_deps default_max_str_digits
            (loads_of "DEPS" latestless_deps)
            (sample_world "DEPS" "" None) ["proj"])
     = inl (KeyError key)
     /\ (key = "project" \/ key = "latest" \/ key = "name"))
  /\ (exists r ups,
        snd (analyze_cargo_deps default_max_str_digits
               (loads_of "DEPS" sample_deps)
               (sample_world "DEPS" "" None) ["proj"]) = inr r
        /\ error r = None
        /\ updates r = Some ups
        /\ Forall2
             (fun dep update =>
                cargo_record default_max_str_digits dep update
                /\ (has_key "kind" dep = false ->
                    kind update = Some (PStr "unknown")))
             [entry [("name", "serde"); ("project", "1.0.1");
                     ("latest", "2.0.0")]]
             ups).
Proof.
  split.
  - refine (cargo_probe_key_errors default_max_str_digits
              (loads_of "DEPS" latestless_deps)
              (sample_world "DEPS" "" None) ["proj"] "DEPS" "" "DEPS" ""
              _ _ eq_refl eq_refl eq_refl eq_refl _).
    repeat constructor.
  - refine (cargo_probe_key_errors default_max_str_digits
              (loads_of "DEPS" sample_deps)
              (sample_world "DEPS" "" None) ["proj"] "DEPS" "" "DEPS" ""
              _ _ eq_refl eq_refl eq_refl eq_refl _).
    repeat constructor.
Defined.

(** C10, as the claim has it: an entry without a "name" whose two versions
    are equal raises nothing; the probe returns its result. *)
Lemma cargo_probe_nameless_entry_returns :
  has_key "name" (entry [("project", "1.0"); ("latest", "1.0")]) = false
  /\ snd (analyze_cargo_deps default_max_str_digits
            (loads_of "DEPS" nameless_deps)
            (sample_world "DEPS" "" None) ["proj"])
     = inr {| error := None; module_path := None;
              total_deps := Some 1%Z;
              outdated_count := Some 0%Z;
              updates := Some [];
              security_advisories := Some [] |}.
Proof.
  split; reflexivity.
Qed.

Lemma has_major_updates_flag_iff_witness :
  exists s,
    summary sample_report = Some s
    /\ (has_major_updates_flag s = true
        <-> exists update,
              In update (report_updates sample_report)
              /\ change_type update = "major")
    /\ (report_updates sample_report = []
        -> has_major_updates_flag s = false).
Proof.
  exact (has_major_updates_flag_iff default_max_str_digits
           (loads_of "DEPS" sample_deps)
           (sample_world "DEPS" sample_go_stdout None) ["proj"]
           _ sample_report eq_refl).
Defined.

Lemma exit_status_of_main_witness :
  run_main default_max_str_digits (loads_of "DEPS" sample_deps)
    missing_root_world (sample_args None)
  = ([Line "Project root not found: /proj"], Exit 1)
  /\ (exists o report s,
        generate_report default_max_str_digits (loads_of "DEPS" sample_deps)
          no_cargo_outdated_world ["proj"] = (o, inr report)
        /\ summary report = Some s
        /\ total_updates s = outdated_total report
        /\ Forall (fun r => error r <> None ->
                            default 0%Z (outdated_count r) = 0%Z)
             (report_results report)
        /\ 0%Z = if (total_updates s >? 0)%Z then 1%Z else 0%Z)
  /\ snd (run_main default_max_str_digits (loads_of "DEPS" sample_deps)
            no_cargo_outdated_world (sample_args None))
     = Exit 0.
Proof.
  split.
  - exact (proj1 (exit_status_of_main default_max_str_digits
                    (loads_of "DEPS" sample_deps)
                    missing_root_world (sample_args None))
             eq_refl).
  - split.
    + exact (proj1 (proj2 (exit_status_of_main default_max_str_digits
                             (loads_of "DEPS" sample_deps)
                             no_cargo_outdated_world (sample_args None)))
               _ 0%Z eq_refl eq_refl).
    + exact (proj2 (proj2 (exit_status_of_main default_max_str_digits
                             (loads_of "DEPS" sample_deps)
                             no_cargo_outdated_world (sample_args None)))
               _ no_cargo_outdated_report eq_refl eq_refl I).
Defined.



Lemma parse_part_beyond_limit_witness :
  py_int 650 (take_while isdigit (rep_char "7" 700)) = inl ValueError
  /\ parse_part 650 (rep_char "7" 700) = 0%Z.
Proof.
  apply (parse_part_beyond_limit 650 (rep_char "7" 700)).
  - apply Nat.ltb_lt. vm_compute. reflexivity.
  - split; apply Nat.ltb_lt; vm_compute; reflexivity.
Defined.

Lemma parse_version_first_three_segments_witness :
  parse_version default_max_str_digits
    (PStr (dotted "v1" (dotted "2" (dotted "3-alpha" "4"))))
  = parse_version default_max_str_digits
      (PStr (dotted "v1" (dotted "2" "3-alpha")))
  /\ parse_version default_max_str_digits
       (PStr (dotted "v1" (dotted "2" "3-alpha")))
     = inr [parse_part default_max_str_digits (lstrip "v" "v1");
            parse_part default_max_str_digits "2";
            parse_part default_max_str_digits "3-alpha"].
Proof.
  exact (parse_version_first_three_segments default_max_str_digits
           "v1" "2" "3-alpha" "4" eq_refl eq_refl eq_refl).
Defined.

Lemma outdated_count_bounds_witness :
  (exists total outdated,
     Some 2%Z = Some total /\ Some 1%Z = Some outdated
     /\ (0 <= outdated <= total)%Z)
  /\ (exists total outdated,
        Some 3%Z = Some total /\ Some 1%Z = Some outdated
        /\ (0 <= outdated <= total)%Z).
Proof.
  destruct (outdated_count_bounds default_max_str_digits
              (loads_of "DEPS" sample_deps)
              (sample_world "DEPS" sample_go_stdout None) ["proj"])
    as [Hcargo Hgo].
  split.
  - exact (Hcargo _ _ eq_refl eq_refl).
  - exact (Hgo ["proj"; "bindings"; "go"] _ _ eq_refl eq_refl).
Defined.

Lemma cargo_probe_without_dependencies_witness :
  snd (analyze_cargo_deps default_max_str_digits
         (loads_of "{}" (PDict [])) (sample_world "{}" "" None) ["proj"])
  = inr (nothing_outdated None (Some [])).
Proof.
  exact (cargo_probe_without_dependencies default_max_str_digits
           (loads_of "{}" (PDict [])) (sample_world "{}" "" None) ["proj"]
           "{}" "" "{}" "" [] eq_refl eq_refl eq_refl eq_refl).
Defined.

Lemma cargo_probe_not_an_object_witness :
  snd (analyze_cargo_deps default_max_str_digits
         (loads_of "[]" (PList [])) (sample_world "[]" "" None) ["proj"])
  = inl AttributeError.
Proof.
  exact (cargo_probe_not_an_object default_max_str_digits
           (loads_of "[]" (PList [])) (sample_world "[]" "" None) ["proj"]
           "[]" "" "[]" "" (PList []) eq_refl eq_refl eq_refl eq_refl).
Defined.

Lemma go_probe_blank_output_witness :
  snd (analyze_go_deps default_max_str_digits
         (sample_world "DEPS" (String newline " ") None) ["proj"]
         ["proj"; "bindings"; "go"])
  = inr (nothing_outdated (Some "/proj/bindings/go") None).
Proof.
  exact (go_probe_blank_output default_max_str_digits
           (sample_world "DEPS" (String newline " ") None) ["proj"]
           ["proj"; "bindings"; "go"] (String newline " ") ""
           eq_refl eq_refl eq_refl).
Defined.

Lemma go_probe_records_well_formed_witness :
  go_record_well_formed
    (go_update default_max_str_digits "github.com/a/b" "v1.2.3" "v1.3.0").
Proof.
  refine (go_probe_records_well_formed default_max_str_digits
            (sample_world "DEPS" sample_go_stdout None) ["proj"]
            ["proj"; "bindings"; "go"] _ _ _ eq_refl _).
  left. reflexivity.
Defined.

Lemma go_line_reads_fields_witness :
  go_line default_max_str_digits (0%Z, 0%Z, [])
    "github.com/a/b v1.2.3 [v1.3.0]"
  = (1%Z, 1%Z,
     [go_update default_max_str_digits "github.com/a/b" "v1.2.3" "v1.3.0"])
  /\ go_line default_max_str_digits (0%Z, 0%Z, []) "github.com/a/b v1.2.3"
     = (1%Z, 0%Z, []).
Proof.
  exact (go_line_reads_fields default_max_str_digits
           "github.com/a/b" " " "v1.2.3" " " "v1.3.0" "" 0%Z 0%Z []
           eq_refl eq_refl eq_refl eq_refl eq_refl).
Defined.

Lemma total_updates_counts_records_witness :
  exists s,
    summary sample_report = Some s
    /\ total_updates s
       = Z.of_nat (List.length (report_updates sample_report))
    /\ total_rust_updates s
       = Z.of_nat
           (List.length (default [] (updates (rust sample_report))))
    /\ total_go_updates s
       = Z.of_nat
           (List.length
              (flat_map (fun module => default [] (updates module))
                 (values (go_modules sample_report))))
    /\ total_updates s = (total_rust_updates s + total_go_updates s)%Z.
Proof.
  exact (total_updates_counts_records default_max_str_digits
           (loads_of "DEPS" sample_deps)
           (sample_world "DEPS" sample_go_stdout None) ["proj"]
           _ sample_report eq_refl).
Defined.

Lemma exit_status_tells_updates_witness :
  exists o report,
    generate_report default_max_str_digits (loads_of "DEPS" sample_deps)
      (sample_world "DEPS" sample_go_stdout None) ["proj"]
    = (o, inr report)
    /\ (1%Z = 1%Z <-> report_updates report <> [])
    /\ (1%Z = 0%Z <-> report_updates report = []).
Proof.
  exact (exit_status_tells_updates default_max_str_digits
           (loads_of "DEPS" sample_deps)
           (sample_world "DEPS" sample_go_stdout None) (sample_args None)
           _ 1%Z eq_refl eq_refl).
Defined.

Lemma go_modules_of_generated_report_witness :
  Forall2
    (go_module_entry default_max_str_digits
       (sample_world "DEPS" sample_go_stdout None) ["proj"])
    (go_modules sample_report)
    [("bindings/go", ["proj"; "bindings"; "go"]);
     ("examples/goclient", ["proj"; "examples"; "goclient"])]
  /\ map fst (go_modules sample_report)
     = ["bindings/go"; "examples/goclient"].
Proof.
  exact (go_modules_of_generated_report default_max_str_digits
           (loads_of "DEPS" sample_deps)
           (sample_world "DEPS" sample_go_stdout None) ["proj"]
           _ sample_report eq_refl).
Defined.

Lemma main_output_witness :
  fst (run_main default_max_str_digits (loads_of "DEPS" sample_deps)
         (sample_world "DEPS" sample_go_stdout None)
         (sample_args (Some "report.json")))
  = [Line "Analyzing Rust dependencies...";
     Line "Analyzing Go dependencies in go...";
     Line "Analyzing Go dependencies in goclient...";
     JsonDump sample_report;
     Line (String newline "Report saved to: report.json")]
  /\ forallb is_line
       [Line "Analyzing Rust dependencies...";
        Line "Analyzing Go dependencies in go...";
        Line "Analyzing Go dependencies in goclient..."] = true
  /\ (true = true ->
      exists rest,
        [Line "Analyzing Rust dependencies...";
         Line "Analyzing Go dependencies in go...";
         Line "Analyzing Go dependencies in goclient..."]
        = Line "Analyzing Rust dependencies..." :: rest).
Proof.
  exact (main_output default_max_str_digits (loads_of "DEPS" sample_deps)
           (sample_world "DEPS" sample_go_stdout None)
           (sample_args (Some "report.json")) _ sample_report
           eq_refl eq_refl (or_intror eq_refl)).
Defined.

Lemma print_report_lists_every_update_witness :
  filter is_update_line (fst (print_report_lines sample_report))
  = map update_line (report_updates sample_report)
  /\ In (TotalUpdates
           (Z.of_nat
              (List.length
                 (filter is_update_line
                    (fst (print_report_lines sample_report))))))
       (fst (print_report_lines sample_report)).
Proof.
  exact (print_report_lists_every_update default_max_str_digits
           (loads_of "DEPS" sample_deps)
           (sample_world "DEPS" sample_go_stdout None) ["proj"]
           _ sample_report eq_refl).
Defined.

Lemma probe_errors_in_human_report_witness :
  (print_report_lines broken_report
   = print_report_lines (without_rust broken_report)
   /\ forall n, ~ In (RustHeader n) (fst (print_report_lines broken_report)))
  /\ In (GoHeader "bindings/go" 0) (fst (print_report_lines broken_report))
  /\ In (ErrorLine "go.mod not found")
       (fst (print_report_lines broken_report)).
Proof.
  destruct (probe_errors_in_human_report default_max_str_digits
              (loads_of "DEPS" sample_deps) broken_world ["proj"]
              _ broken_report eq_refl)
    as [Hrust Hgo].
  split.
  - apply Hrust. discriminate.
  - apply (Hgo "bindings/go" (error_result "go.mod not found")
             "go.mod not found");
      [left; reflexivity | reflexivity].
Defined.

Lemma major_warning_iff_red_line_witness :
  (In major_warning (fst (print_report_lines sample_report))
   <-> exists name current latest,
         In (UpdateLine Red name current latest)
            (fst (print_report_lines sample_report)))
  /\ (forall change_type,
        get_change_icon change_type = Red <-> change_type = "major").
Proof.
  exact (major_warning_iff_red_line default_max_str_digits
           (loads_of "DEPS" sample_deps)
           (sample_world "DEPS" sample_go_stdout None) ["proj"]
           _ sample_report eq_refl).
Defined.

Lemma probes_on_failed_command_witness :
  analyze_cargo_deps default_max_str_digits (loads_of "DEPS" sample_deps)
    timeout_world ["proj"]
  = ([Line "Analyzing Rust dependencies...";
      Line
        "cargo-outdated not found. Install with: cargo install cargo-outdated"],
     inr (error_result "cargo-outdated not installed"))
  /\ snd (analyze_go_deps default_max_str_digits timeout_world ["proj"]
            ["proj"; "bindings"; "go"])
     = inr (error_result "Failed to run go list: Command timed out")
  /\ snd (analyze_go_deps default_max_str_digits no_tools_world ["proj"]
            ["proj"; "bindings"; "go"])
     = inr (error_result
              "Failed to run go list: [Errno 2] No such file or directory").
Proof.
  split; [|split].
  - apply (proj1 (probes_on_failed_command default_max_str_digits
                    (loads_of "DEPS" sample_deps) timeout_world ["proj"]
                    ["proj"; "bindings"; "go"])).
    intros stdout stderr. discriminate.
  - exact (proj1 (proj2 (probes_on_failed_command default_max_str_digits
                           (loads_of "DEPS" sample_deps) timeout_world
                           ["proj"] ["proj"; "bindings"; "go"]))
             eq_refl eq_refl).
  - exact (proj2 (proj2 (probes_on_failed_command default_max_str_digits
                           (loads_of "DEPS" sample_deps) no_tools_world
                           ["proj"] ["proj"; "bindings"; "go"]))
             "FileNotFoundError" "[Errno 2] No such file or directory"
             eq_refl eq_refl).
Defined.


